(** * blender_annotation_tool: [functionality.py]

    A shallow embedding of the add-on's operators and handlers, and the
    properties of its class registry, colour palette and animation loop.

    Python values are modelled as the code has them: [int] as [Z], [float]
    as the kernel's binary64 floats, [str] as [string], a [bpy] collection
    as a [list] of its items in order.  A call that can raise returns an
    [Outcome] that carries either the returned status set or the exception,
    together with the state reached and the messages sent through
    [self.report]. *)

From Stdlib Require Import ZArith Lia Floats.PrimFloat Numbers.Cyclic.Int63.Uint63.
From stdpp Require Import base option list strings pretty sorting gmap.

Local Open Scope Z_scope.

(** ** Python built-ins used by the module *)

Module Py.

(** The exceptions that the code of the module can raise by itself, and
    [RuntimeError], which the host raises from [unregister_class]. *)
Inductive Exn : Set :=
  | ValueError      (* range() arg 3 must not be zero *)
  | IndexError      (* collection index out of range *)
  | AttributeError  (* attribute access on None *)
  | RuntimeError.   (* unregister_class of a class that is not registered *)

(** [len(range(lo, hi, step))] for a non-zero step. *)
Definition range_len (lo hi step : Z) : Z :=
  if 0 <? step then (if lo <? hi then 1 + (hi - 1 - lo) / step else 0)
  else (if hi <? lo then 1 + (lo - 1 - hi) / (- step) else 0).

(** The items of [range(lo, hi, step)], item [i] being [lo + i * step]. *)
Definition range_items (lo hi step : Z) : list Z :=
  (λ i, lo + i * step) <$> seqZ 0 (range_len lo hi step).

(** [range(lo, hi, step)]: a step of zero raises [ValueError]. *)
Definition range (lo hi step : Z) : Exn + list Z :=
  if step =? 0 then inl ValueError else inr (range_items lo hi step).

(** [reversed(r)] of a sequence. *)
Definition reversed {A} (l : list A) : list A := reverse l.

(** [float(n)] of a small non-negative [int]; exact below [2^53]. *)
Definition float_of_int (n : Z) : float := PrimFloat.of_uint63 (Uint63.of_Z n).

(** [n / d] on two [int]s is true division: the quotient as a [float]. *)
Definition truediv (n d : Z) : float :=
  PrimFloat.div (float_of_int n) (float_of_int d).

(** [x == y] on [float]s. *)
Definition float_eq (x y : float) : bool := PrimFloat.eqb x y.

(** [x < y] on [float]s. *)
Definition float_lt (x y : float) : bool := PrimFloat.ltb x y.

(** [seq[i]] with Python's negative indices; [None] is [IndexError]. *)
Definition index {A} (l : list A) (i : Z) : option A :=
  if i <? 0 then
    (if 0 <=? Z.of_nat (length l) + i then l !! Z.to_nat (Z.of_nat (length l) + i) else None)
  else l !! Z.to_nat i.

(** [l.remove(x)]: the first item equal to [x] goes; [ValueError] when no
    item is equal to [x]. *)
Fixpoint list_remove {A} `{EqDecision A} (x : A) (l : list A) : Exn + list A :=
  match l with
  | [] => inl ValueError
  | y :: l' =>
      if decide (y = x) then inr l'
      else match list_remove x l' with
           | inl e => inl e
           | inr r => inr (y :: r)
           end
  end.

End Py.

(** ** Instance-segmentation colours *)

(** An RGBA tuple [(r, g, b, 1)]: three [float]s and the [int] alpha. *)
Definition RGBA : Type := float * float * float * Z.

(** The values a channel runs through: [reversed(range(10,240,10))]. *)
Definition channel_range : list Z := Py.reversed (Py.range_items 10 240 10).

(** The module-level list [INSTANCE_COLORS], built by the three nested
    loops; each loop variable is divided by 255 at the top of its body. *)
Definition INSTANCE_COLORS : list RGBA :=
  r ← channel_range; let r := Py.truediv r 255 in
  g ← channel_range; let g := Py.truediv g 255 in
  b ← channel_range; let b := Py.truediv b 255 in
  [(r, g, b, 1)].

(** [t1 == t2] on two RGBA tuples. *)
Definition rgba_eq (c1 c2 : RGBA) : bool :=
  let '(r1, g1, b1, a1) := c1 in
  let '(r2, g2, b2, a2) := c2 in
  Py.float_eq r1 r2 && Py.float_eq g1 g2 && Py.float_eq b1 b2 && (a1 =? a2).

(** *** The generator [instance_color]

    A generator object is a heap object with its own position in the
    iteration over the (shared, never mutated) list [INSTANCE_COLORS].
    The heap maps the identity of each live generator to its position. *)

Definition GenId : Type := nat.
Definition GenHeap : Type := gmap nat nat.

(** [instance_color()]: a new generator object, not yet advanced. *)
Definition instance_color (h : GenHeap) : GenId * GenHeap :=
  let g := fresh (dom h) in (g, <[g := 0%nat]> h).

(** [next(g)]: the colour at the generator's position, which then moves on;
    [None] is [StopIteration] (also for an identity that is not live). *)
Definition gen_next (g : GenId) (h : GenHeap) : option RGBA * GenHeap :=
  match h !! g with
  | Some pos =>
      match INSTANCE_COLORS !! pos with
      | Some color => (Some color, <[g := S pos]> h)
      | None => (None, h)
      end
  | None => (None, h)
  end.

(** The results of [n] successive [next(g)] calls. *)
Fixpoint gen_draws (n : nat) (g : GenId) (h : GenHeap) : list (option RGBA) * GenHeap :=
  match n with
  | O => ([], h)
  | S n' =>
      let '(c, h1) := gen_next g h in
      let '(cs, h2) := gen_draws n' g h1 in
      (c :: cs, h2)
  end.

(** ** Host data: scene properties, context and reports *)

(** [mask_color]: an RGB triple of [float]s. *)
Definition Color : Type := float * float * float.

(** An item of [scene.bat_properties.classification_classes]. *)
Record ClassEntry : Type := mkClassEntry {
  name : string;
  mask_color : Color
}.

(** [scene.bat_properties]. *)
Record BatProperties : Type := mkBatProperties {
  classification_classes : list ClassEntry;
  current_class : string;
  save_annotation : bool
}.

(** [scene.render], as far as the module reads and writes it. *)
Record RenderSettings : Type := mkRenderSettings {
  filepath : string
}.

Record Scene : Type := mkScene {
  bat_properties : BatProperties;
  frame_start : Z;
  frame_end : Z;
  frame_step : Z;
  frame_current : Z;
  render : RenderSettings
}.

(** A region of [context.area]; [redraw_tagged] records [tag_redraw()]. *)
Record Region : Type := mkRegion {
  region_type : string;
  redraw_tagged : bool
}.

Record Area : Type := mkArea {
  regions : list Region
}.

(** The operator context; [context.area] is [None] outside a UI area. *)
Record Context : Type := mkContext {
  scene : Scene;
  area : option Area
}.

(** The members of the status set an operator returns. *)
Inductive Status : Set := FINISHED.

(** The report types the module passes to [self.report]. *)
Inductive ReportType : Set := ERROR_INVALID_INPUT | WARNING.

Definition Report : Type := ReportType * string.

(** What a call leaves behind: the status it returned or the exception it
    raised, the state it reached, and the messages it reported. *)
Record Outcome (S : Type) : Type := mkOutcome {
  returned : Py.Exn + Status;
  state : S;
  reports : list Report
}.
Arguments mkOutcome {S} _ _ _.
Arguments returned {S} _.
Arguments state {S} _.
Arguments reports {S} _.

Definition finished {S} (s : S) (msgs : list Report) : Outcome S :=
  mkOutcome (inr FINISHED) s msgs.

Definition raised {S} (e : Py.Exn) (s : S) (msgs : list Report) : Outcome S :=
  mkOutcome (inl e) s msgs.

(** One call of [bpy.ops.render.render], as the host sees it: the frame
    the scene is at, the output path in force and the [write_still] flag. *)
Record RenderCall : Type := mkRenderCall {
  call_frame : Z;
  call_filepath : string;
  call_write_still : bool
}.

(** Attribute assignments, written as functional updates. *)
Definition set_name (s : string) (c : ClassEntry) : ClassEntry :=
  mkClassEntry s (mask_color c).

Definition set_mask_color (col : Color) (c : ClassEntry) : ClassEntry :=
  mkClassEntry (name c) col.

Definition set_classification_classes (l : list ClassEntry) (p : BatProperties) : BatProperties :=
  mkBatProperties l (current_class p) (save_annotation p).

Definition set_current_class (s : string) (p : BatProperties) : BatProperties :=
  mkBatProperties (classification_classes p) s (save_annotation p).

Definition set_bat_properties (p : BatProperties) (sc : Scene) : Scene :=
  mkScene p (frame_start sc) (frame_end sc) (frame_step sc) (frame_current sc) (render sc).

Definition set_filepath (path : string) (sc : Scene) : Scene :=
  mkScene (bat_properties sc) (frame_start sc) (frame_end sc) (frame_step sc)
          (frame_current sc) (mkRenderSettings path).

Definition set_scene (sc : Scene) (context : Context) : Context :=
  mkContext sc (area context).

Definition set_area (a : option Area) (context : Context) : Context :=
  mkContext (scene context) a.

(** The registry of a context and the names in it, in order. *)
Definition classes_of (context : Context) : list ClassEntry :=
  classification_classes (bat_properties (scene context)).

Definition selection_of (context : Context) : string :=
  current_class (bat_properties (scene context)).

Definition names (l : list ClassEntry) : list string := name <$> l.

(** *** Host collection methods *)

Module Coll.

(** [coll.add()]: a new item with the property defaults at the end;
    the reference it returns is the position of that item. *)
Definition add (fresh_item : ClassEntry) (l : list ClassEntry) : list ClassEntry * nat :=
  (l ++ [fresh_item], length l).

(** [coll.find(key)]: the index of the first item of that name, or -1. *)
Definition find (key : string) (l : list ClassEntry) : Z :=
  match list_find (λ c, name c = key) l with
  | Some (i, _) => Z.of_nat i
  | None => -1
  end.

(** [coll.remove(index)]: the item at [index] goes, the rest move up. *)
Definition remove (i : Z) (l : list ClassEntry) : list ClassEntry :=
  if 0 <=? i then delete (Z.to_nat i) l else l.

End Coll.

(** *** What the host provides and the module does not define *)

Class Host : Type := {
  (** [utils.DEFAULT_CLASS_NAME], the reserved name of the default class. *)
  DEFAULT_CLASS_NAME : string;
  (** The [mask_color] a new collection item starts with. *)
  placeholder_color : Color;
  (** [scene.render.frame_path(frame=n)]: the file a frame is written to,
      computed by the host from the render settings and the frame. *)
  frame_path : RenderSettings → Z → string
}.

Section Addon.
Context `{Host}.

(** The item [classes.add()] appends: empty name, default colour. *)
Definition fresh_item : ClassEntry := mkClassEntry "" placeholder_color.

(** [setDefaultClassName(scene)] *)
Definition setDefaultClassName (scene : Scene) : Scene :=
  let classes := classification_classes (bat_properties scene) in
  if bool_decide (classes = []) then
    let '(classes, background_class) := Coll.add fresh_item classes in
    let classes := alter (set_name DEFAULT_CLASS_NAME) background_class classes in
    let classes := alter (set_mask_color (0, 0, 0)%float) background_class classes in
    set_bat_properties (set_classification_classes classes (bat_properties scene)) scene
  else scene.

(** [scene.frame_set(frame)]: the scene moves to that frame. *)
Definition frame_set (frame : Z) (scene : Scene) : Scene :=
  mkScene (bat_properties scene) (frame_start scene) (frame_end scene)
          (frame_step scene) frame (render scene).

(** [bpy.ops.render.render(write_still=...)]: the host renders the scene
    as it is; the call is appended to the log of renders.  What the host
    call may raise by itself is the host's matter and is not modelled. *)
Definition ops_render_render (write_still : bool) (scene : Scene)
    (log : list RenderCall) : list RenderCall :=
  log ++ [mkRenderCall (frame_current scene) (filepath (render scene)) write_still].

(** The body of the loop of [BAT_OT_render_animation.execute]. *)
Definition render_animation_body (st : Scene * list RenderCall) (frame_num : Z)
    : Scene * list RenderCall :=
  let '(scene, log) := st in
  let scene := frame_set frame_num scene in
  let original_render_path := filepath (render scene) in
  let scene := set_filepath (frame_path (render scene) (frame_current scene)) scene in
  let log := ops_render_render true scene log in
  let scene := set_filepath original_render_path scene in
  (scene, log).

(** [BAT_OT_render_animation.execute] *)
Definition render_animation_execute (context : Context) (log : list RenderCall)
    : Outcome (Context * list RenderCall) :=
  let scene := scene context in
  match Py.range (frame_start scene) (frame_end scene + 1) (frame_step scene) with
  | inl e => raised e (context, log) []
  | inr frames =>
      let '(scene, log) := foldl render_animation_body (scene, log) frames in
      finished (set_scene scene context, log) []
  end.

(** The redraw loop at the end of [BAT_OT_add_class.execute]. *)
Definition tag_redraw_ui (r : Region) : Region :=
  if bool_decide (region_type r = "UI") then mkRegion (region_type r) true else r.

(** [BAT_OT_add_class.execute], [self.new_class_name] being the input. *)
Definition add_class_execute (new_class_name : string) (context : Context)
    : Outcome Context :=
  if bool_decide (new_class_name = "") then
    finished context [(ERROR_INVALID_INPUT, "The class name must not be empty!")]
  else if bool_decide (new_class_name ∈ names (classes_of context)) then
    finished context [(WARNING, "The class name already exists")]
  else
    let props := bat_properties (scene context) in
    let '(classes, new_class) := Coll.add fresh_item (classification_classes props) in
    let classes := alter (set_name new_class_name) new_class classes in
    let props := set_classification_classes classes props in
    match Py.index classes (-1) with
    | None => raised Py.IndexError (set_scene (set_bat_properties props (scene context)) context) []
    | Some last =>
        let props := set_current_class (name last) props in
        let context := set_scene (set_bat_properties props (scene context)) context in
        match area context with
        | None => raised Py.AttributeError context []
        | Some a =>
            finished (set_area (Some (mkArea (tag_redraw_ui <$> regions a))) context) []
        end
    end.

(** [BAT_OT_remove_class.execute] *)
Definition remove_class_execute (context : Context) : Outcome Context :=
  let scene := scene context in
  let props := bat_properties scene in
  let index := Coll.find (current_class props) (classification_classes props) in
  if bool_decide (0 < Z.of_nat (length (classification_classes props)))
     && bool_decide (current_class props ≠ DEFAULT_CLASS_NAME)
     && bool_decide (1 ≤ index)
  then
    let classes := Coll.remove index (classification_classes props) in
    let props := set_classification_classes classes props in
    match Py.index classes (index - 1) with
    | None => raised Py.IndexError (set_scene (set_bat_properties props scene) context) []
    | Some previous =>
        let props := set_current_class (name previous) props in
        finished (set_scene (set_bat_properties props scene) context) []
    end
  else finished context [].

(** The context in which item [i] of the registry is gone and the name of
    [previous] is the selection. *)
Definition after_removal (i : nat) (previous : ClassEntry) (context : Context) : Context :=
  let props := bat_properties (scene context) in
  let props := set_classification_classes (delete i (classification_classes props)) props in
  let props := set_current_class (name previous) props in
  set_scene (set_bat_properties props (scene context)) context.

(** The handlers [onRegister] and [onFileLoaded]: both ensure the default
    class on the scene they are given (for [onFileLoaded], the scene of
    [bpy.context]). *)
Definition onRegister (scene : Scene) : Scene := setDefaultClassName scene.

Definition onFileLoaded (context : Context) : Context :=
  set_scene (setDefaultClassName (scene context)) context.

(** The operations on the registry, for the statement of its invariant. *)
Inductive RegistryOp : Type :=
  | EnsureDefault
  | AddClass (new_class_name : string)
  | RemoveClass.

Definition run_op (op : RegistryOp) (context : Context) : Context :=
  match op with
  | EnsureDefault => onFileLoaded context
  | AddClass new_class_name => state (add_class_execute new_class_name context)
  | RemoveClass => state (remove_class_execute context)
  end.

(** The invariant of the registry: not empty, the default name present,
    no name twice. *)
Definition registry_inv (l : list ClassEntry) : Prop :=
  (1 ≤ length l)%nat ∧ DEFAULT_CLASS_NAME ∈ names l ∧ NoDup (names l).

End Addon.

(** ** Statements of the specification, as predicates on the model *)

(** The render call the loop makes for frame [f] of a scene: the frame,
    the path the host derives from that frame number, output written. *)
Definition frame_render_call `{Host} (sc : Scene) (f : Z) : RenderCall :=
  mkRenderCall f (frame_path (render sc) f) true.

(** "Renders exactly the frames starting at [frame_start], stepping by
    [frame_step], inclusive of [frame_end]": the renders added to the log
    are those of the frames [frame_start + k * frame_step <= frame_end],
    each once, in increasing order. *)
Definition renders_frame_range `{Host} (context : Context) (log : list RenderCall) : Prop :=
  let sc := scene context in
  ∃ frames : list Z,
    snd (state (render_animation_execute context log))
      = log ++ (frame_render_call sc <$> frames)
    ∧ StronglySorted Z.lt frames
    ∧ ∀ f, f ∈ frames ↔ ∃ k, 0 ≤ k ∧ f = frame_start sc + k * frame_step sc ∧ f ≤ frame_end sc.

(** "The output path is restored and the operator returns finished". *)
Definition restores_path_and_finishes `{Host} (context : Context) (log : list RenderCall) : Prop :=
  let out := render_animation_execute context log in
  filepath (render (scene (fst (state out)))) = filepath (render (scene context))
  ∧ returned out = inr FINISHED.

(** The colour at position [n] of the nested enumeration: red from the
    quotient by 23 * 23, green from the next digit, blue from the last. *)
Definition level (d : Z) : float := Py.truediv (230 - 10 * d) 255.

Definition color_at (n : Z) : RGBA :=
  (level (n / (23 * 23)), level (n / 23 mod 23), level (n mod 23), 1).

(** ** Concrete data for the examples *)

Definition example_host : Host := {|
  DEFAULT_CLASS_NAME := "Background";
  placeholder_color := (1, 1, 1)%float;
  frame_path := λ r n, filepath r +:+ pretty n
|}.

Definition black : Color := (0, 0, 0)%float.

Definition example_classes : list ClassEntry :=
  [mkClassEntry "Background" black; mkClassEntry "car" black; mkClassEntry "tree" black].

Definition example_scene (classes : list ClassEntry) (current : string)
    (first last step : Z) : Scene :=
  mkScene (mkBatProperties classes current false) first last step 0
          (mkRenderSettings "//out/").

Definition example_context (classes : list ClassEntry) (current : string) : Context :=
  mkContext (example_scene classes current 1 5 2)
            (Some (mkArea [mkRegion "WINDOW" false; mkRegion "UI" false])).

(** A scene whose [frame_step] is zero. *)
Definition zero_step_context : Context :=
  mkContext (example_scene example_classes "car" 1 5 0) None.

(** Whether [==] on the normalised channel values agrees with equality
    of the integers they come from, for all pairs of a list of values. *)
Definition levels_faithful (l : list Z) : bool :=
  forallb (λ x, forallb (λ y,
    Bool.eqb (Py.float_eq (Py.truediv x 255) (Py.truediv y 255)) (x =? y)) l) l.

(** ** The render-write handler *)

(** An area of a screen, as the handler reads it: its type and its
    regions. *)
Record ScreenArea : Type := mkScreenArea {
  area_type : string;
  area_regions : list Region
}.

Record Screen : Type := mkScreen {
  areas : list ScreenArea
}.

Record Window : Type := mkWindow {
  screen : Screen
}.

(** [bpy.context.window_manager]: the open windows, and the [write_still]
    property of [operator_properties_last('render.opengl')]. *)
Record WindowManager : Type := mkWindowManager {
  windows : list Window;
  opengl_write_still : bool
}.

(** [bpy.context] inside a handler; its members may be [None] there. *)
Record HandlerContext : Type := mkHandlerContext {
  window_manager : WindowManager;
  context_window : option Window;
  context_screen : option Screen;
  context_area : option ScreenArea;
  context_region : option Region
}.

(** The dictionary [bpy.context.copy()] gives, at the four keys the
    handler assigns: 'window', 'screen', 'area' and 'region'. *)
Record ContextDict : Type := mkContextDict {
  dict_window : option Window;
  dict_screen : option Screen;
  dict_area : option ScreenArea;
  dict_region : option Region
}.

Definition context_copy (c : HandlerContext) : ContextDict :=
  mkContextDict (context_window c) (context_screen c) (context_area c) (context_region c).

(** The innermost loop: the first region of type 'WINDOW' is stored, and
    the loop is left. *)
Fixpoint region_loop (rs : list Region) (override : ContextDict) : ContextDict :=
  match rs with
  | [] => override
  | region :: rs' =>
      if bool_decide (region_type region = "WINDOW") then
        mkContextDict (dict_window override) (dict_screen override) (dict_area override)
                      (Some region)
      else region_loop rs' override
  end.

(** The body of the loop over the areas of the screen of [window]. *)
Definition area_body (window : Window) (override : ContextDict) (area : ScreenArea)
    : ContextDict :=
  if bool_decide (area_type area = "VIEW_3D") then
    let override :=
      mkContextDict (Some window) (Some (screen window)) (Some area) (dict_region override) in
    region_loop (area_regions area) override
  else override.

(** The body of the loop over the windows. *)
Definition window_body (override : ContextDict) (window : Window) : ContextDict :=
  foldl (area_body window) override (areas (screen window)).

(** [onRenderWrite(scene)]: the context it leaves and the overrides it
    calls [bpy.ops.render.bat_render_annotation] with, in order. *)
Definition onRenderWrite (scene : Scene) (c : HandlerContext)
    : HandlerContext * list ContextDict :=
  if save_annotation (bat_properties scene) then
    let c :=
      mkHandlerContext (mkWindowManager (windows (window_manager c)) true)
        (context_window c) (context_screen c) (context_area c) (context_region c) in
    let override := context_copy c in
    let override := foldl window_body override (windows (window_manager c)) in
    (c, [override])
  else (c, []).

(** The areas of type 'VIEW_3D' with their windows, in the order the
    loops meet them. *)
Definition view3d_areas (ws : list Window) : list (Window * ScreenArea) :=
  window ← ws; area ← areas (screen window);
  if bool_decide (area_type area = "VIEW_3D") then [(window, area)] else [].

(** What the loops do when they meet one area of type 'VIEW_3D'. *)
Definition view3d_body (override : ContextDict) (p : Window * ScreenArea) : ContextDict :=
  region_loop (area_regions p.2)
    (mkContextDict (Some p.1) (Some (screen p.1)) (Some p.2) (dict_region override)).

(** The first region of type 'WINDOW' of an area, if it has one. *)
Definition first_window_region (area : ScreenArea) : option Region :=
  snd <$> list_find (λ r, region_type r = "WINDOW") (area_regions area).

(** ** Registration *)

(** The functions found in the handler lists of [bpy.app.handlers]: the
    three handlers of this module, and those of others. *)
Inductive Handler : Set :=
  | fn_onRegister
  | fn_onFileLoaded
  | fn_onRenderWrite
  | fn_other (id : nat).

#[global] Instance Handler_eq_dec : EqDecision Handler.
Proof. solve_decision. Defined.

(** [bpy.app.handlers], at the three lists the module uses. *)
Record Handlers : Type := mkHandlers {
  depsgraph_update_pre : list Handler;
  load_post : list Handler;
  render_write : list Handler
}.

Inductive OperatorClass : Set :=
  | BAT_OT_render_annotation
  | BAT_OT_render_animation
  | BAT_OT_add_class
  | BAT_OT_remove_class.

(** The module-level list [classes]. *)
Definition classes : list OperatorClass :=
  [BAT_OT_render_annotation; BAT_OT_render_animation; BAT_OT_add_class; BAT_OT_remove_class].

#[global] Instance OperatorClass_eq_dec : EqDecision OperatorClass.
Proof. solve_decision. Defined.

(** [bpy.utils.register_class(cls)] on the classes the host has
    registered: the host raises [ValueError] for a class that is
    registered already. *)
Definition register_class (cls : OperatorClass) (reg : list OperatorClass)
    : Py.Exn + list OperatorClass :=
  if bool_decide (cls ∈ reg) then inl Py.ValueError else inr (reg ++ [cls]).

(** [bpy.utils.unregister_class(cls)]: the host raises [RuntimeError] for
    a class that is not registered. *)
Definition unregister_class (cls : OperatorClass) (reg : list OperatorClass)
    : Py.Exn + list OperatorClass :=
  if bool_decide (cls ∈ reg) then inr (filter (λ c, c ≠ cls) reg) else inl Py.RuntimeError.

(** [for cls in cs: f(cls)]: the loop ends at the first call that raises;
    the result is the classes registered then, and the exception if any. *)
Fixpoint for_classes (f : OperatorClass → list OperatorClass → Py.Exn + list OperatorClass)
    (cs : list OperatorClass) (reg : list OperatorClass)
    : list OperatorClass * option Py.Exn :=
  match cs with
  | [] => (reg, None)
  | cls :: cs' =>
      match f cls reg with
      | inl e => (reg, Some e)
      | inr reg' => for_classes f cs' reg'
      end
  end.

(** The handler lists and the classes registered with the host. *)
Record App : Type := mkApp {
  handlers : Handlers;
  registered : list OperatorClass
}.

(** [register()]: the state it leaves, and the exception it raised if it
    did not return. *)
Definition register (app : App) : App * option Py.Exn :=
  let h := handlers app in
  let h := mkHandlers (depsgraph_update_pre h ++ [fn_onRegister]) (load_post h) (render_write h) in
  let h := mkHandlers (depsgraph_update_pre h) (load_post h ++ [fn_onFileLoaded]) (render_write h) in
  let h := mkHandlers (depsgraph_update_pre h) (load_post h) (render_write h ++ [fn_onRenderWrite]) in
  let '(reg, exn) := for_classes register_class classes (registered app) in
  (mkApp h reg, exn).

(** [if fn in l: l.remove(fn)] *)
Definition remove_if_in (fn : Handler) (l : list Handler) : Py.Exn + list Handler :=
  if bool_decide (fn ∈ l) then Py.list_remove fn l else inr l.

(** [unregister()]: the state it leaves, and the exception it raised if
    it did not return. *)
Definition unregister (app : App) : App * option Py.Exn :=
  let h := handlers app in
  match remove_if_in fn_onRegister (depsgraph_update_pre h) with
  | inl e => (app, Some e)
  | inr l1 =>
      match remove_if_in fn_onFileLoaded (load_post h) with
      | inl e => (mkApp (mkHandlers l1 (load_post h) (render_write h)) (registered app), Some e)
      | inr l2 =>
          match remove_if_in fn_onRenderWrite (render_write h) with
          | inl e => (mkApp (mkHandlers l1 l2 (render_write h)) (registered app), Some e)
          | inr l3 =>
              let '(reg, exn) :=
                for_classes unregister_class (Py.reversed classes) (registered app) in
              (mkApp (mkHandlers l1 l2 l3) reg, exn)
          end
      end
  end.

(** [l'] is [l] without the first occurrence of [fn], or [l] itself when
    [fn] does not occur in it. *)
Definition first_removed (fn : Handler) (l l' : list Handler) : Prop :=
  ((fn ∉ l) ∧ l' = l) ∨ (∃ l1 l2, l = l1 ++ fn :: l2 ∧ (fn ∉ l1) ∧ l' = l1 ++ l2).

(** ** Sequences of operations *)

(** The operations of a list, one after the other. *)
Definition run_ops `{Host} (ops : list RegistryOp) (context : Context) : Context :=
  foldl (λ c op, run_op op c) context ops.

(** The current selection names an entry of the registry. *)
Definition selection_valid (context : Context) : Prop :=
  selection_of context ∈ names (classes_of context).

(** ** More concrete data for the examples *)

(** A context with no area, and one whose frame range is empty. *)
Definition no_area_context : Context :=
  mkContext (example_scene example_classes "car" 1 5 2) None.

Definition empty_range_context : Context :=
  mkContext (example_scene example_classes "car" 5 1 2) None.

Definition new_file_context : Context :=
  mkContext (example_scene [] "" 1 250 1) None.

(** A scene whose [save_annotation] flag is set. *)
Definition annotated_scene : Scene :=
  mkScene (mkBatProperties example_classes "car" true) 1 5 2 0 (mkRenderSettings "//out/").

(** Two windows: a 3D viewport beside a properties editor, and a 3D
    viewport that has no region of type 'WINDOW'. *)
Definition full_view3d : ScreenArea :=
  mkScreenArea "VIEW_3D" [mkRegion "HEADER" false; mkRegion "WINDOW" false].

Definition properties_editor : ScreenArea :=
  mkScreenArea "PROPERTIES" [mkRegion "WINDOW" true].

Definition bare_view3d : ScreenArea :=
  mkScreenArea "VIEW_3D" [mkRegion "HEADER" true].

Definition example_handler_context : HandlerContext :=
  mkHandlerContext
    (mkWindowManager [mkWindow (mkScreen [full_view3d; properties_editor]);
                      mkWindow (mkScreen [bare_view3d])] false)
    None None None None.

Definition no_view3d_context : HandlerContext :=
  mkHandlerContext (mkWindowManager [mkWindow (mkScreen [properties_editor])] false)
    None None None None.

(** Handler lists that hold handlers of others only, and no class of
    this module registered. *)
Definition example_app : App :=
  mkApp (mkHandlers [fn_other 1] [] [fn_other 2; fn_other 3]) [].


(** ** Facts about the Python built-ins *)

Section PyFacts.

Lemma range_nonzero lo hi step :
  step ≠ 0 → Py.range lo hi step = inr (Py.range_items lo hi step).
Proof. intros Hs. unfold Py.range. by rewrite (proj2 (Z.eqb_neq step 0) Hs). Qed.

Lemma range_zero lo hi : Py.range lo hi 0 = inl Py.ValueError.
Proof. reflexivity. Qed.

(** For a positive step, position [i] is inside the range exactly when
    its item lies below the bound. *)
Lemma range_len_bound lo hi step i :
  0 < step → 0 ≤ i → i < Py.range_len lo hi step ↔ lo + i * step < hi.
Proof.
  intros Hs Hi. unfold Py.range_len.
  rewrite (proj2 (Z.ltb_lt 0 step) Hs).
  destruct (Z.ltb_spec lo hi) as [Hlt|Hge].
  - pose proof (Z.div_mod (hi - 1 - lo) step ltac:(lia)) as Hdm.
    pose proof (Z.mod_pos_bound (hi - 1 - lo) step Hs) as Hm.
    split; intros Hb; nia.
  - split; intros Hb; [lia|nia].
Qed.

Lemma elem_of_range_items lo hi step f :
  0 < step →
  f ∈ Py.range_items lo hi step ↔ ∃ k, 0 ≤ k ∧ f = lo + k * step ∧ f < hi.
Proof.
  intros Hs. unfold Py.range_items. rewrite list_elem_of_fmap. split.
  - intros (i & -> & Hi). apply elem_of_seqZ in Hi. exists i.
    split; [lia|]. split; [done|]. apply range_len_bound; lia.
  - intros (k & Hk & -> & Hb). exists k. split; [done|].
    apply elem_of_seqZ. split; [done|]. simpl. by apply range_len_bound.
Qed.

Lemma seqZ_sorted m n : StronglySorted Z.lt (seqZ m n).
Proof.
  destruct (Z.le_gt_cases n 0) as [Hn|Hn]; [rewrite seqZ_nil by done; constructor|].
  rewrite <- (Z2Nat.id n) by lia. generalize (Z.to_nat n) as k. clear.
  intros k. revert m. induction k as [|k IH]; intros m.
  - rewrite seqZ_nil by done. constructor.
  - rewrite seqZ_cons by lia. constructor.
    + replace (Z.pred (Z.of_nat (S k))) with (Z.of_nat k) by lia. apply IH.
    + apply Forall_forall. intros x Hx%elem_of_seqZ. lia.
Qed.

Lemma range_items_sorted lo hi step :
  0 < step → StronglySorted Z.lt (Py.range_items lo hi step).
Proof.
  intros Hs. unfold Py.range_items.
  apply StronglySorted_fmap with (R1 := Z.lt); [|apply seqZ_sorted].
  intros x y Hxy. nia.
Qed.

Lemma index_last {A} (l : list A) (x : A) : Py.index (l ++ [x]) (-1) = Some x.
Proof.
  unfold Py.index. simpl. rewrite length_app. simpl.
  destruct (Z.leb_spec 0 (Z.of_nat (length l + 1) + -1)); [|lia].
  replace (Z.to_nat (Z.of_nat (length l + 1) + -1)) with (length l + 0)%nat by lia.
  by rewrite lookup_app_r, Nat.add_comm, Nat.sub_diag by lia.
Qed.

Lemma index_nonneg {A} (l : list A) (i : nat) : Py.index l (Z.of_nat i) = l !! i.
Proof.
  unfold Py.index. destruct (Z.ltb_spec (Z.of_nat i) 0); [lia|].
  by rewrite Nat2Z.id.
Qed.

End PyFacts.

(** ** The colour palette *)

Section Palette.

Lemma channel_range_values :
  channel_range =
    [230; 220; 210; 200; 190; 180; 170; 160; 150; 140; 130; 120;
     110; 100; 90; 80; 70; 60; 50; 40; 30; 20; 10].
Proof. reflexivity. Qed.

Lemma channel_range_NoDup : NoDup channel_range.
Proof. rewrite channel_range_values. apply (bool_decide_unpack _). by vm_compute. Qed.

Lemma channel_range_faithful : levels_faithful channel_range = true.
Proof. by vm_compute. Qed.

(** On the channel values, [==] after division by 255 is equality. *)
Lemma level_eq x y :
  x ∈ channel_range → y ∈ channel_range →
  Py.float_eq (Py.truediv x 255) (Py.truediv y 255) = (x =? y).
Proof.
  intros Hx%list_elem_of_In Hy%list_elem_of_In.
  pose proof channel_range_faithful as Hf. unfold levels_faithful in Hf.
  rewrite forallb_forall in Hf. specialize (Hf x Hx).
  rewrite forallb_forall in Hf. specialize (Hf y Hy).
  by apply Bool.eqb_prop in Hf.
Qed.

Lemma level_inj x y :
  x ∈ channel_range → y ∈ channel_range →
  Py.truediv x 255 = Py.truediv y 255 → x = y.
Proof.
  intros Hx Hy Heq. apply Z.eqb_eq.
  rewrite <- (level_eq x y Hx Hy), <- Heq, (level_eq x x Hx Hx).
  apply Z.eqb_refl.
Qed.

Lemma elem_of_INSTANCE_COLORS c :
  c ∈ INSTANCE_COLORS ↔
  ∃ r g b, r ∈ channel_range ∧ g ∈ channel_range ∧ b ∈ channel_range
           ∧ c = (Py.truediv r 255, Py.truediv g 255, Py.truediv b 255, 1).
Proof.
  unfold INSTANCE_COLORS. split.
  - intros (r & Hc & Hr)%list_elem_of_bind.
    apply list_elem_of_bind in Hc as (g & Hc & Hg).
    apply list_elem_of_bind in Hc as (b & Hc & Hb).
    apply list_elem_of_singleton in Hc. by exists r, g, b.
  - intros (r & g & b & Hr & Hg & Hb & ->).
    apply list_elem_of_bind. exists r. split; [|done].
    apply list_elem_of_bind. exists g. split; [|done].
    apply list_elem_of_bind. exists b. split; [|done].
    by apply list_elem_of_singleton.
Qed.

Lemma INSTANCE_COLORS_NoDup : NoDup INSTANCE_COLORS.
Proof.
  pose proof channel_range_NoDup as Hnd. pose proof level_inj as Hinj.
  unfold INSTANCE_COLORS.
  apply NoDup_bind; [|intros r Hr; apply NoDup_bind; [|intros g Hg; apply NoDup_bind|]|]; try done.
  - intros r1 r2 c Hr1 Hr2 Hc1 Hc2.
    apply list_elem_of_bind in Hc1 as (g1 & Hc1 & _).
    apply list_elem_of_bind in Hc1 as (b1 & Hc1 & _).
    apply list_elem_of_bind in Hc2 as (g2 & Hc2 & _).
    apply list_elem_of_bind in Hc2 as (b2 & Hc2 & _).
    apply list_elem_of_singleton in Hc1, Hc2. subst c.
    apply Hinj; [done..|congruence].
  - intros g1 g2 c Hg1 Hg2 Hc1 Hc2.
    apply list_elem_of_bind in Hc1 as (b1 & Hc1 & _).
    apply list_elem_of_bind in Hc2 as (b2 & Hc2 & _).
    apply list_elem_of_singleton in Hc1, Hc2. subst c.
    apply Hinj; [done..|congruence].
  - intros b1 b2 c Hb1 Hb2 Hc1 Hc2.
    apply list_elem_of_singleton in Hc1, Hc2. subst c.
    apply Hinj; [done..|congruence].
  - intros b Hb. apply NoDup_singleton.
Qed.

(** On the palette, [==] on tuples is equality. *)
Lemma rgba_eq_true c c' :
  c ∈ INSTANCE_COLORS → c' ∈ INSTANCE_COLORS → rgba_eq c c' = true → c = c'.
Proof.
  intros (r & g & b & Hr & Hg & Hb & ->)%elem_of_INSTANCE_COLORS.
  intros (r' & g' & b' & Hr' & Hg' & Hb' & ->)%elem_of_INSTANCE_COLORS.
  unfold rgba_eq. rewrite !level_eq by done.
  rewrite !andb_true_iff, !Z.eqb_eq. by intros [[[-> ->] ->] _].
Qed.

Lemma INSTANCE_COLORS_positions :
  INSTANCE_COLORS = color_at <$> seqZ 0 (23 * 23 * 23).
Proof. vm_compute. reflexivity. Qed.

Lemma INSTANCE_COLORS_length : length INSTANCE_COLORS = (23 * 23 * 23)%nat.
Proof. by rewrite INSTANCE_COLORS_positions, length_fmap, length_seqZ. Qed.

Lemma INSTANCE_COLORS_lookup (i j k : Z) :
  0 ≤ i < 23 → 0 ≤ j < 23 → 0 ≤ k < 23 →
  INSTANCE_COLORS !! Z.to_nat (i * (23 * 23) + j * 23 + k)
    = Some (level i, level j, level k, 1).
Proof.
  intros Hi Hj Hk. rewrite INSTANCE_COLORS_positions, list_lookup_fmap.
  rewrite lookup_seqZ_lt by lia. rewrite Z2Nat.id by lia.
  simpl "<$>". unfold color_at. rewrite Z.add_0_l.
  set (n := i * (23 * 23) + j * 23 + k).
  assert (n / (23 * 23) = i) as ->.
  { symmetry. apply Z.div_unique with (r := j * 23 + k); lia. }
  assert (n / 23 = i * 23 + j) as ->.
  { symmetry. apply Z.div_unique with (r := k); lia. }
  assert ((i * 23 + j) mod 23 = j) as ->.
  { symmetry. apply Z.mod_unique with (q := i); lia. }
  assert (n mod 23 = k) as ->.
  { symmetry. apply Z.mod_unique with (q := i * 23 + j); lia. }
  done.
Qed.

End Palette.

(** C1 (amended).  A channel runs through [reversed(range(10,240,10))],
    the 23 values 230, 220, ..., 10.  [INSTANCE_COLORS] is the nested
    enumeration of these values over red (outer), green (middle) and blue
    (inner), each divided by 255, with alpha 1: position
    [i * 23 * 23 + j * 23 + k] holds the colour of the [i]-th, [j]-th and
    [k]-th value.  Its length is 23 * 23 * 23 = 12167, no colour occurs
    twice, and two colours at different positions differ under [==]. *)
Theorem instance_colors_enumeration :
  channel_range =
    [230; 220; 210; 200; 190; 180; 170; 160; 150; 140; 130; 120;
     110; 100; 90; 80; 70; 60; 50; 40; 30; 20; 10]
  ∧ length channel_range = 23%nat
  ∧ length INSTANCE_COLORS = (23 * 23 * 23)%nat
  ∧ (∀ i j k : Z, 0 ≤ i < 23 → 0 ≤ j < 23 → 0 ≤ k < 23 →
       INSTANCE_COLORS !! Z.to_nat (i * (23 * 23) + j * 23 + k)
       = Some (Py.truediv (230 - 10 * i) 255, Py.truediv (230 - 10 * j) 255,
               Py.truediv (230 - 10 * k) 255, 1))
  ∧ NoDup INSTANCE_COLORS
  ∧ (∀ (m n : nat) (c c' : RGBA),
       INSTANCE_COLORS !! m = Some c → INSTANCE_COLORS !! n = Some c' →
       m ≠ n → c ≠ c' ∧ rgba_eq c c' = false).
Proof.
  split; [apply channel_range_values|].
  split; [by rewrite channel_range_values|].
  split; [apply INSTANCE_COLORS_length|].
  split; [apply INSTANCE_COLORS_lookup|].
  split; [apply INSTANCE_COLORS_NoDup|].
  intros m n c c' Hm Hn Hmn.
  assert (c ≠ c') as Hne.
  { intros <-. apply Hmn. by eapply NoDup_lookup; [apply INSTANCE_COLORS_NoDup|..]. }
  split; [done|].
  destruct (rgba_eq c c') eqn:Heq; [|done].
  destruct Hne. apply rgba_eq_true; [by eapply list_elem_of_lookup_2..|done].
Qed.

Lemma instance_colors_enumeration_witness :
  INSTANCE_COLORS !! 24%nat
    = Some (Py.truediv 230 255, Py.truediv 220 255, Py.truediv 220 255, 1)
  ∧ rgba_eq (Py.truediv 230 255, Py.truediv 230 255, Py.truediv 230 255, 1)
            (Py.truediv 230 255, Py.truediv 230 255, Py.truediv 220 255, 1) = false.
Proof.
  destruct instance_colors_enumeration as (_ & _ & _ & Hpos & _ & Hdiff).
  split.
  - apply (Hpos 0 1 1); lia.
  - apply (Hdiff 0%nat 1%nat); [apply (Hpos 0 0 0); lia|apply (Hpos 0 0 1); lia|lia].
Defined.

(** C1, as stated, fails: a channel has 23 values and not 24, the list has
    12167 colours and not 24 * 24 * 24 = 13824, and there is no colour at
    position 12167 (the 12168th draw), let alone up to the 13824th. *)
Lemma instance_colors_not_24_cubed :
  length channel_range ≠ 24%nat
  ∧ length INSTANCE_COLORS ≠ (24 * 24 * 24)%nat
  ∧ INSTANCE_COLORS !! (23 * 23 * 23)%nat = None.
Proof.
  split; [by rewrite channel_range_values|].
  split.
  - rewrite INSTANCE_COLORS_length. apply Nat.eqb_neq. by vm_compute.
  - apply lookup_ge_None. by rewrite INSTANCE_COLORS_length.
Qed.

(** ** The colour generator *)

(** The list is only used through the lemmas above from here on. *)
Opaque INSTANCE_COLORS.

Section Generator.
Implicit Types (g : GenId) (h : GenHeap).

Lemma instance_color_fresh h : h !! (instance_color h).1 = None.
Proof. apply not_elem_of_dom, is_fresh. Qed.

Lemma instance_color_start h : (instance_color h).2 !! (instance_color h).1 = Some 0%nat.
Proof. apply lookup_insert_eq. Qed.

Lemma instance_color_other h g :
  g ≠ (instance_color h).1 → (instance_color h).2 !! g = h !! g.
Proof. intros Hne. by apply lookup_insert_ne. Qed.

Lemma gen_next_other g g' h : g' ≠ g → (gen_next g h).2 !! g' = h !! g'.
Proof.
  intros Hne. unfold gen_next.
  destruct (h !! g) as [pos|]; [|done].
  destruct (INSTANCE_COLORS !! pos); [|done].
  by apply lookup_insert_ne.
Qed.

Lemma gen_draws_other n g g' h : g' ≠ g → (gen_draws n g h).2 !! g' = h !! g'.
Proof.
  intros Hne. revert h. induction n as [|n IH]; intros h; [done|].
  simpl. destruct (gen_next g h) as [c h1] eqn:Hnext.
  destruct (gen_draws n g h1) as [cs h2] eqn:Hrest. simpl.
  replace h2 with (gen_draws n g h1).2 by (by rewrite Hrest).
  rewrite IH. replace h1 with (gen_next g h).2 by (by rewrite Hnext).
  by apply gen_next_other.
Qed.

(** The draws of a generator at position [pos] are the colours from that
    position on, and [StopIteration] from the end of the list on. *)
Lemma gen_draws_from n g h pos :
  h !! g = Some pos →
  (gen_draws n g h).1 = (λ i, INSTANCE_COLORS !! (pos + i)%nat) <$> seq 0 n.
Proof.
  revert h pos. induction n as [|n IH]; intros h pos Hpos; [done|].
  simpl. unfold gen_next. rewrite Hpos.
  rewrite <- fmap_S_seq, <- list_fmap_compose, Nat.add_0_r.
  destruct (INSTANCE_COLORS !! pos) as [color|] eqn:Hc.
  - destruct (gen_draws n g (<[g:=S pos]> h)) as [cs h2] eqn:Hrest. simpl.
    f_equal. replace cs with (gen_draws n g (<[g:=S pos]> h)).1 by (by rewrite Hrest).
    rewrite (IH _ (S pos)) by apply lookup_insert_eq.
    apply list_fmap_ext. intros _ i _. simpl. by rewrite Nat.add_succ_r.
  - destruct (gen_draws n g h) as [cs h2] eqn:Hrest. simpl.
    f_equal. replace cs with (gen_draws n g h).1 by (by rewrite Hrest).
    rewrite (IH _ pos Hpos).
    apply list_fmap_ext. intros _ i _. simpl.
    apply lookup_ge_None in Hc.
    rewrite !(proj2 (lookup_ge_None _ _)); [done|lia..].
Qed.

End Generator.

(** C8.  A call of [instance_color] on any heap of generators gives a new
    generator (an identity no live generator has, the others untouched)
    at the start of the list: its first draw is (230/255, 230/255,
    230/255, 1) and its [n] first draws are the [n] first positions of
    [INSTANCE_COLORS] ([StopIteration] past the end).  The generators of
    two calls, on whatever heaps, give the same draws, and drawing from
    another generator in between does not change them. *)
Theorem instance_color_fresh_sequence (h : GenHeap) :
  let g := (instance_color h).1 in
  let h' := (instance_color h).2 in
  h !! g = None
  ∧ (∀ g', g' ≠ g → h' !! g' = h !! g')
  ∧ (gen_next g h').1 = Some (Py.truediv 230 255, Py.truediv 230 255, Py.truediv 230 255, 1)
  ∧ (∀ n, (gen_draws n g h').1 = (λ i, INSTANCE_COLORS !! i) <$> seq 0 n)
  ∧ (∀ h2 n, (gen_draws n (instance_color h2).1 (instance_color h2).2).1 = (gen_draws n g h').1)
  ∧ (∀ g2 m n, g2 ≠ g → (gen_draws n g (gen_draws m g2 h').2).1 = (gen_draws n g h').1).
Proof.
  intros g h'. subst g h'.
  assert (∀ h0 n, (gen_draws n (instance_color h0).1 (instance_color h0).2).1
                  = (λ i, INSTANCE_COLORS !! i) <$> seq 0 n) as Hdraws.
  { intros h0 n. by rewrite (gen_draws_from n _ _ 0%nat) by apply instance_color_start. }
  split; [apply instance_color_fresh|].
  split; [intros g' Hg'; by apply instance_color_other|].
  split.
  { unfold gen_next. rewrite instance_color_start.
    pose proof (INSTANCE_COLORS_lookup 0 0 0) as H0.
    change (Z.to_nat _) with 0%nat in H0. cbv beta iota.
    unfold RGBA in *. rewrite H0 by lia. reflexivity. }
  split; [apply Hdraws|].
  split; [intros h2 n; by rewrite !Hdraws|].
  intros g2 m n Hne.
  rewrite (gen_draws_from n _ _ 0%nat).
  - symmetry. apply Hdraws.
  - rewrite gen_draws_other by done. apply instance_color_start.
Qed.

Lemma instance_color_fresh_sequence_witness :
  (gen_draws 2 (instance_color (<[1%nat := 5%nat]> ∅)).1
     (gen_draws 3 1%nat (instance_color (<[1%nat := 5%nat]> ∅)).2).2).1
  = (gen_draws 2 (instance_color (<[1%nat := 5%nat]> ∅)).1
       (instance_color (<[1%nat := 5%nat]> ∅)).2).1.
Proof.
  destruct (instance_color_fresh_sequence (<[1%nat := 5%nat]> ∅)) as (_ & _ & _ & _ & _ & Hother).
  apply (Hother 1%nat 3%nat 2%nat). by vm_compute.
Defined.

(** ** The class registry *)

Section Registry.
Context `{Host}.
Implicit Types (context : Context) (scene : Scene) (l : list ClassEntry).

Lemma names_app l1 l2 : names (l1 ++ l2) = names l1 ++ names l2.
Proof. apply fmap_app. Qed.

Lemma names_delete i l : names (delete i l) = delete i (names l).
Proof. apply list_fmap_delete. Qed.

(** Renaming the item that [add()] has just appended. *)
Lemma add_then_rename l s :
  alter (set_name s) (length l) (l ++ [fresh_item]) = l ++ [mkClassEntry s placeholder_color].
Proof.
  induction l as [|c l IH]; [done|]. simpl. f_equal. apply IH.
Qed.

Lemma setDefaultClassName_empty scene :
  classification_classes (bat_properties scene) = [] →
  setDefaultClassName scene
  = set_bat_properties
      (set_classification_classes [mkClassEntry DEFAULT_CLASS_NAME (0, 0, 0)%float]
         (bat_properties scene)) scene.
Proof. intros Hnil. unfold setDefaultClassName. by rewrite Hnil. Qed.

Lemma setDefaultClassName_nonempty scene :
  classification_classes (bat_properties scene) ≠ [] →
  setDefaultClassName scene = scene.
Proof.
  intros Hne. unfold setDefaultClassName.
  by rewrite bool_decide_eq_false_2.
Qed.

Lemma setDefaultClassName_result_nonempty scene :
  classification_classes (bat_properties (setDefaultClassName scene)) ≠ [].
Proof.
  destruct (classification_classes (bat_properties scene)) as [|c l] eqn:Hl.
  - by rewrite setDefaultClassName_empty.
  - rewrite setDefaultClassName_nonempty; by rewrite Hl.
Qed.

(** The outcome of [add_class_execute] for a name that passes both checks. *)
Lemma add_class_execute_fresh new_class_name context :
  new_class_name ≠ "" →
  new_class_name ∉ names (classes_of context) →
  let props := bat_properties (scene context) in
  let classes := classes_of context ++ [mkClassEntry new_class_name placeholder_color] in
  let props := set_current_class new_class_name (set_classification_classes classes props) in
  let context' := set_scene (set_bat_properties props (scene context)) context in
  add_class_execute new_class_name context
  = match area context with
    | None => raised Py.AttributeError context' []
    | Some a => finished (set_area (Some (mkArea (tag_redraw_ui <$> regions a))) context') []
    end.
Proof.
  intros Hne Hnotin. unfold add_class_execute.
  rewrite bool_decide_eq_false_2 by done.
  rewrite bool_decide_eq_false_2 by done.
  unfold Coll.add, classes_of. rewrite add_then_rename, index_last. simpl.
  by destruct (area context).
Qed.

(** [find] gives the position of the first item of that name. *)
Lemma find_Some key l (i : nat) :
  Coll.find key l = Z.of_nat i ↔
  ∃ e, l !! i = Some e ∧ name e = key
       ∧ ∀ j e', l !! j = Some e' → (j < i)%nat → name e' ≠ key.
Proof.
  unfold Coll.find. split.
  - destruct (list_find _ l) as [[i' e]|] eqn:Hfind; [|lia].
    intros Hi. apply Nat2Z.inj in Hi as ->.
    apply list_find_Some in Hfind. by exists e.
  - intros (e & Hfind). apply (list_find_Some (λ c, name c = key)) in Hfind.
    by rewrite Hfind.
Qed.

Lemma find_None key l : Coll.find key l = -1 ↔ key ∉ names l.
Proof.
  unfold Coll.find. split.
  - destruct (list_find _ l) as [[i' e]|] eqn:Hfind; [lia|].
    intros _ (e & -> & He)%list_elem_of_fmap.
    apply list_find_None in Hfind. rewrite Forall_forall in Hfind.
    by apply (Hfind e).
  - intros Hnotin. destruct (list_find _ l) as [[i' e]|] eqn:Hfind; [|done].
    apply list_find_Some in Hfind as (Hl & Hn & _).
    destruct Hnotin. apply list_elem_of_fmap. exists e. split; [done|].
    by eapply list_elem_of_lookup_2.
Qed.

Lemma find_range key l : Coll.find key l = -1 ∨ 0 ≤ Coll.find key l < Z.of_nat (length l).
Proof.
  unfold Coll.find. destruct (list_find _ l) as [[i e]|] eqn:Hfind; [right|by left].
  apply list_find_Some in Hfind as (Hl%lookup_lt_Some & _). lia.
Qed.

(** When the guard holds: the item found is removed and the one before
    it becomes the selection. *)
Lemma remove_class_execute_removes context (i : nat) (previous : ClassEntry) :
  Coll.find (selection_of context) (classes_of context) = Z.of_nat (S i) →
  selection_of context ≠ DEFAULT_CLASS_NAME →
  classes_of context !! i = Some previous →
  remove_class_execute context = finished (after_removal (S i) previous context) [].
Proof.
  unfold selection_of, classes_of. intros Hfind Hne Hprev.
  unfold remove_class_execute. rewrite Hfind.
  pose proof (lookup_lt_Some _ _ _ Hprev) as Hlen.
  rewrite !bool_decide_eq_true_2 by (done || lia). cbn [andb].
  unfold Coll.remove. destruct (Z.leb_spec 0 (Z.of_nat (S i))); [|lia].
  rewrite Nat2Z.id.
  replace (Z.of_nat (S i) - 1) with (Z.of_nat i) by lia.
  rewrite index_nonneg, list_lookup_delete_lt by lia. by rewrite Hprev.
Qed.

(** When the guard fails: nothing happens. *)
Lemma remove_class_execute_noop context :
  selection_of context = DEFAULT_CLASS_NAME
  ∨ Coll.find (selection_of context) (classes_of context) < 1 →
  remove_class_execute context = finished context [].
Proof.
  unfold selection_of, classes_of, remove_class_execute. intros [Hdef|Hidx].
  - rewrite (bool_decide_eq_false_2 (_ ≠ _)) by (by intros []).
    by rewrite andb_false_r.
  - rewrite (bool_decide_eq_false_2 (1 ≤ _)) by lia.
    by rewrite andb_false_r.
Qed.

Lemma elem_of_delete_other {A} (x y : A) (i : nat) (k : list A) :
  x ∈ k → k !! i = Some y → x ≠ y → x ∈ delete i k.
Proof.
  intros (j & Hj)%list_elem_of_lookup Hi Hne.
  destruct (Nat.lt_trichotomy j i) as [Hlt|[->|Hgt]].
  - apply list_elem_of_lookup. exists j. by rewrite list_lookup_delete_lt.
  - congruence.
  - apply list_elem_of_lookup. exists (j - 1)%nat.
    rewrite list_lookup_delete_ge by lia. by replace (S (j - 1)) with j by lia.
Qed.

Lemma registry_inv_after_removal context (i : nat) previous removed :
  registry_inv (classes_of context) →
  classes_of context !! S i = Some removed →
  name removed ≠ DEFAULT_CLASS_NAME →
  registry_inv (classes_of (after_removal (S i) previous context)).
Proof.
  unfold classes_of, after_removal. simpl.
  intros (Hlen & Hdef & Hnd) Hrem Hne. split_and!.
  - pose proof (lookup_lt_Some _ _ _ Hrem). rewrite length_delete by eauto. lia.
  - rewrite names_delete. apply elem_of_delete_other with (y := name removed); [done| |done].
    unfold names. by rewrite list_lookup_fmap, Hrem.
  - rewrite names_delete. eapply sublist_NoDup; [done|apply sublist_delete].
Qed.

Lemma add_class_execute_rejected new_class_name context :
  new_class_name = "" ∨ new_class_name ∈ names (classes_of context) →
  state (add_class_execute new_class_name context) = context.
Proof.
  intros Hrej. unfold add_class_execute.
  destruct (bool_decide (new_class_name = "")) eqn:Hempty; [done|].
  destruct Hrej as [->|Hin]; [done|]. by rewrite bool_decide_eq_true_2.
Qed.

Lemma add_class_execute_fresh_classes new_class_name context :
  new_class_name ≠ "" →
  new_class_name ∉ names (classes_of context) →
  classes_of (state (add_class_execute new_class_name context))
  = classes_of context ++ [mkClassEntry new_class_name placeholder_color].
Proof.
  intros Hne Hnotin. rewrite add_class_execute_fresh by done.
  by destruct (area context).
Qed.

(** C9.  [setDefaultClassName] on a scene with an empty registry leaves
    exactly one entry, of the reserved default name and colour black
    (0, 0, 0), and changes nothing else; on a scene with a non-empty
    registry it changes nothing, however often it is applied; and
    applying it twice is the same as applying it once. *)
Theorem ensure_default_idempotent :
  (∀ scene,
     classification_classes (bat_properties scene) = [] →
     classification_classes (bat_properties (setDefaultClassName scene))
       = [mkClassEntry DEFAULT_CLASS_NAME (0, 0, 0)%float]
     ∧ setDefaultClassName scene
       = set_bat_properties
           (set_classification_classes [mkClassEntry DEFAULT_CLASS_NAME (0, 0, 0)%float]
              (bat_properties scene)) scene)
  ∧ (∀ scene (n : nat),
       classification_classes (bat_properties scene) ≠ [] →
       Nat.iter n setDefaultClassName scene = scene)
  ∧ (∀ scene, setDefaultClassName (setDefaultClassName scene) = setDefaultClassName scene).
Proof.
  split_and!.
  - intros scene Hnil. by rewrite setDefaultClassName_empty.
  - intros scene n Hne. induction n as [|n IH]; [done|].
    simpl. rewrite IH. by apply setDefaultClassName_nonempty.
  - intros scene. apply setDefaultClassName_nonempty, setDefaultClassName_result_nonempty.
Qed.

(** C6.  [add_class_execute] with the empty name reports
    [ERROR_INVALID_INPUT] and, with a (non-empty) name that is already in
    the registry, reports [WARNING]; in both cases the context (registry
    and selection included) is unchanged and FINISHED is returned. *)
Theorem add_class_rejects context :
  (let out := add_class_execute "" context in
   returned out = inr FINISHED ∧ state out = context
   ∧ reports out = [(ERROR_INVALID_INPUT, "The class name must not be empty!")])
  ∧ (∀ new_class_name,
       new_class_name ∈ names (classes_of context) →
       let out := add_class_execute new_class_name context in
       returned out = inr FINISHED ∧ state out = context
       ∧ (new_class_name ≠ "" →
          reports out = [(WARNING, "The class name already exists")])).
Proof.
  split; [done|].
  intros new_class_name Hin. unfold add_class_execute.
  destruct (bool_decide (new_class_name = "")) eqn:Hempty.
  - apply bool_decide_eq_true_1 in Hempty. by split_and!.
  - by rewrite bool_decide_eq_true_2.
Qed.

(** C7.  [add_class_execute] with a non-empty name that is not in the
    registry appends one entry of that name and the placeholder colour
    at the end of the registry, leaves every entry that was there in
    place and unchanged, and makes the new name the selection; nothing
    is reported, and FINISHED is returned when the context has an
    area. *)
Theorem add_class_appends new_class_name context :
  new_class_name ≠ "" →
  new_class_name ∉ names (classes_of context) →
  let out := add_class_execute new_class_name context in
  classes_of (state out)
    = classes_of context ++ [mkClassEntry new_class_name placeholder_color]
  ∧ (∀ (i : nat) e, classes_of context !! i = Some e → classes_of (state out) !! i = Some e)
  ∧ length (classes_of (state out)) = S (length (classes_of context))
  ∧ selection_of (state out) = new_class_name
  ∧ reports out = []
  ∧ (is_Some (area context) → returned out = inr FINISHED).
Proof.
  intros Hne Hnotin out. subst out.
  rewrite add_class_execute_fresh by done.
  assert (∀ c, classes_of
            (match area context with
             | None => raised Py.AttributeError c []
             | Some a => finished (set_area (Some (mkArea (tag_redraw_ui <$> regions a))) c) []
             end).(state) = classes_of c) as Hcl by (intros c; by destruct (area context)).
  split_and!.
  - by rewrite Hcl.
  - intros i e Hi. rewrite Hcl. unfold classes_of at 1. simpl.
    by apply lookup_app_l_Some.
  - rewrite Hcl. unfold classes_of at 1. simpl. rewrite length_app. simpl. lia.
  - by destruct (area context).
  - by destruct (area context).
  - intros [a Ha]. by rewrite Ha.
Qed.

(** C2.  Let the registry have, at index [i], an entry whose name is the
    current selection, no entry before it having that name (as is the
    case when [i] is the first such index, or when no name occurs twice).
    If [i >= 1] and the selection is not the reserved default name,
    [remove_class_execute] removes that entry and the selection becomes
    the name of the entry before it (the registry cannot become empty
    then).  If the registry has at most one entry, or the selection is
    the reserved default name (wherever that entry is), or the entry at
    index 0 has the name of the selection, the context is unchanged and
    nothing is reported.  FINISHED is returned in all these cases. *)
Theorem remove_class_guarded context :
  (∀ (i : nat) removed,
     classes_of context !! i = Some removed →
     name removed = selection_of context →
     (∀ (j : nat) e, classes_of context !! j = Some e → (j < i)%nat →
                     name e ≠ selection_of context)
     ∨ NoDup (names (classes_of context)) →
     (1 ≤ i)%nat →
     selection_of context ≠ DEFAULT_CLASS_NAME →
     ∃ previous,
       classes_of context !! (i - 1)%nat = Some previous
       ∧ returned (remove_class_execute context) = inr FINISHED
       ∧ reports (remove_class_execute context) = []
       ∧ state (remove_class_execute context) = after_removal i previous context
       ∧ classes_of (state (remove_class_execute context)) = delete i (classes_of context)
       ∧ selection_of (state (remove_class_execute context)) = name previous
       ∧ classes_of (state (remove_class_execute context)) ≠ [])
  ∧ ((length (classes_of context) ≤ 1)%nat
     ∨ selection_of context = DEFAULT_CLASS_NAME
     ∨ (∃ e, classes_of context !! 0%nat = Some e ∧ name e = selection_of context) →
     returned (remove_class_execute context) = inr FINISHED
     ∧ reports (remove_class_execute context) = []
     ∧ state (remove_class_execute context) = context).
Proof.
  split.
  - intros [|i] removed Hrem Hname Hfirst Hi Hne; [lia|].
    assert (Coll.find (selection_of context) (classes_of context) = Z.of_nat (S i)) as Hfind.
    { apply find_Some. exists removed. split_and!; [done..|].
      destruct Hfirst as [Hfirst|Hnd]; [done|].
      intros j e Hj Hlt Heq.
      assert (j = S i); [|lia].
      apply (NoDup_lookup (names (classes_of context)) j (S i) (selection_of context) Hnd);
        unfold names; rewrite list_lookup_fmap.
      - by rewrite Hj, <- Heq.
      - by rewrite Hrem, <- Hname. }
    destruct (classes_of context !! i) as [previous|] eqn:Hprev.
    2:{ apply lookup_ge_None in Hprev. apply lookup_lt_Some in Hrem. lia. }
    exists previous.
    rewrite (remove_class_execute_removes context i previous) by done.
    replace (S i - 1)%nat with i by lia.
    split_and!; try done.
    unfold classes_of, after_removal. simpl. intros Hnil.
    apply (f_equal length) in Hnil. rewrite length_delete in Hnil by eauto.
    apply lookup_lt_Some in Hrem. simpl in Hnil. unfold classes_of in Hrem. lia.
  - intros Hguard. rewrite remove_class_execute_noop; [done|].
    destruct Hguard as [Hlen|[Hdef|(e & Hzero & Hname)]]; [|by left|].
    + right. pose proof (find_range (selection_of context) (classes_of context)). lia.
    + right. assert (Coll.find (selection_of context) (classes_of context) = Z.of_nat 0) as ->; [|lia].
      apply find_Some. exists e. split_and!; [done..|]. intros j e' _ Hlt. lia.
Qed.

(** C10.  If no entry of the registry has the name of the current
    selection, [remove_class_execute] changes nothing, reports nothing and
    returns FINISHED. *)
Theorem remove_class_missing_selection context :
  selection_of context ∉ names (classes_of context) →
  returned (remove_class_execute context) = inr FINISHED
  ∧ reports (remove_class_execute context) = []
  ∧ state (remove_class_execute context) = context
  ∧ classes_of (state (remove_class_execute context)) = classes_of context
  ∧ selection_of (state (remove_class_execute context)) = selection_of context.
Proof.
  intros Hmissing%find_None.
  rewrite remove_class_execute_noop; [done|]. right. lia.
Qed.

(** C3.  Each operation on the registry (ensure-default, add class with
    any name, remove class) takes a context whose registry is non-empty,
    contains the reserved default name and has no name twice to a context
    whose registry has these three properties again. *)
Theorem registry_inv_preserved (op : RegistryOp) context :
  registry_inv (classes_of context) →
  registry_inv (classes_of (run_op op context)).
Proof.
  intros Hinv. pose proof Hinv as (Hlen & Hdef & Hnd).
  destruct op as [|new_class_name|]; simpl.
  - unfold onFileLoaded, classes_of. simpl.
    rewrite setDefaultClassName_nonempty; [done|].
    unfold classes_of in Hlen. intros Hnil. rewrite Hnil in Hlen. simpl in Hlen. lia.
  - destruct (decide (new_class_name = "")) as [Hempty|Hne].
    { rewrite add_class_execute_rejected; [done|by left]. }
    destruct (decide (new_class_name ∈ names (classes_of context))) as [Hin|Hnotin].
    { rewrite add_class_execute_rejected; [done|by right]. }
    rewrite add_class_execute_fresh_classes by done.
    split_and!.
    + rewrite length_app. lia.
    + rewrite names_app. apply elem_of_app. by left.
    + rewrite names_app. apply NoDup_app. split_and!; [done| |apply NoDup_singleton].
      by intros x Hx ->%list_elem_of_singleton.
  - destruct (find_range (selection_of context) (classes_of context)) as [Hnone|Hrange].
    { rewrite remove_class_execute_noop; [done|]. right. lia. }
    destruct (decide (selection_of context = DEFAULT_CLASS_NAME)) as [Hsel|Hsel].
    { rewrite remove_class_execute_noop; [done|]. by left. }
    destruct (Z.to_nat (Coll.find (selection_of context) (classes_of context))) as [|i] eqn:Hi.
    { rewrite remove_class_execute_noop; [done|]. right. lia. }
    assert (Coll.find (selection_of context) (classes_of context) = Z.of_nat (S i)) as Hfind by lia.
    pose proof Hfind as (removed & Hrem & Hname & _)%find_Some.
    destruct (classes_of context !! i) as [previous|] eqn:Hprev.
    2:{ apply lookup_ge_None in Hprev. apply lookup_lt_Some in Hrem. lia. }
    rewrite (remove_class_execute_removes context i previous) by done.
    apply registry_inv_after_removal with (removed := removed); [done..|congruence].
Qed.

End Registry.

(** ** The animation loop *)

Section Animation.
Context `{Host}.
Implicit Types (context : Context) (scene : Scene) (log : list RenderCall).

(** One turn of the loop: the scene is at the frame, one render with the
    path of that frame is logged, and the output path is back. *)
Lemma render_animation_body_spec scene log (f : Z) :
  render_animation_body (scene, log) f
  = (frame_set f scene, log ++ [frame_render_call scene f]).
Proof. by destruct scene as [props first last step current [path]]. Qed.

Lemma render_animation_loop (frames : list Z) scene log :
  foldl render_animation_body (scene, log) frames
  = (foldl (λ sc f, frame_set f sc) scene frames,
     log ++ (frame_render_call scene <$> frames)).
Proof.
  revert scene log. induction frames as [|f frames IH]; intros scene log.
  - simpl. by rewrite app_nil_r.
  - change (foldl render_animation_body (scene, log) (f :: frames))
      with (foldl render_animation_body (render_animation_body (scene, log) f) frames).
    rewrite render_animation_body_spec, IH.
    rewrite fmap_cons, <- app_assoc. reflexivity.
Qed.

Lemma frame_set_loop_render (frames : list Z) scene :
  render (foldl (λ sc f, frame_set f sc) scene frames) = render scene.
Proof.
  revert scene. induction frames as [|f frames IH]; intros scene; [done|].
  simpl. by rewrite IH.
Qed.

(** The outcome of the operator for a step that is not zero. *)
Lemma render_animation_execute_nonzero context log :
  frame_step (scene context) ≠ 0 →
  let sc := scene context in
  let frames := Py.range_items (frame_start sc) (frame_end sc + 1) (frame_step sc) in
  render_animation_execute context log
  = finished (set_scene (foldl (λ sc f, frame_set f sc) sc frames) context,
              log ++ (frame_render_call sc <$> frames)) [].
Proof.
  intros Hstep. unfold render_animation_execute.
  rewrite range_nonzero by done. by rewrite render_animation_loop.
Qed.

(** With a step of zero, [range] raises before any frame is rendered. *)
Lemma render_animation_execute_zero context log :
  frame_step (scene context) = 0 →
  render_animation_execute context log = raised Py.ValueError (context, log) [].
Proof.
  intros Hstep. unfold render_animation_execute. by rewrite Hstep, range_zero.
Qed.

(** C4 (amended).  For every scene whose [frame_step] is at least 1, the
    operator renders exactly the frames [frame_start + k * frame_step]
    that do not exceed [frame_end], each once and in increasing order,
    each with the path the host derives from that frame number, and
    returns FINISHED; for [frame_start = 1], [frame_end = 5] and
    [frame_step = 2] these are the frames 1, 3 and 5. *)
Theorem render_animation_frames context log :
  1 ≤ frame_step (scene context) →
  renders_frame_range context log
  ∧ returned (render_animation_execute context log) = inr FINISHED
  ∧ (frame_start (scene context) = 1 → frame_end (scene context) = 5 →
     frame_step (scene context) = 2 →
     snd (state (render_animation_execute context log))
     = log ++ (frame_render_call (scene context) <$> [1; 3; 5])).
Proof.
  intros Hstep. rewrite render_animation_execute_nonzero by lia.
  split_and!; [|done|].
  - unfold renders_frame_range. rewrite render_animation_execute_nonzero by lia.
    eexists. split; [done|]. split; [apply range_items_sorted; lia|].
    intros f. rewrite elem_of_range_items by lia.
    split; intros (k & Hk & Hf & Hb); exists k; lia.
  - intros -> -> ->. done.
Qed.

(** C5 (amended).  For every scene whose [frame_step] is not zero, after
    the operator the render output path of the scene is what it was
    before, and the operator returns FINISHED. *)
Theorem render_animation_restores_path context log :
  frame_step (scene context) ≠ 0 →
  restores_path_and_finishes context log.
Proof.
  intros Hstep. unfold restores_path_and_finishes.
  rewrite render_animation_execute_nonzero by done. simpl.
  by rewrite frame_set_loop_render.
Qed.

End Animation.

(** ** The theorems at concrete inputs *)

(** C9 on an empty registry and, three times over, on a registry of
    three classes. *)
Lemma ensure_default_idempotent_witness :
  classification_classes
    (bat_properties (setDefaultClassName (H := example_host) (example_scene [] "" 1 5 2)))
  = [mkClassEntry "Background" black]
  ∧ Nat.iter 3 (setDefaultClassName (H := example_host)) (example_scene example_classes "car" 1 5 2)
    = example_scene example_classes "car" 1 5 2.
Proof.
  destruct (ensure_default_idempotent (H := example_host)) as (Hempty & Hiter & _).
  split.
  - apply (Hempty (example_scene [] "" 1 5 2)). reflexivity.
  - apply Hiter. discriminate.
Defined.

(** C6 on the name "car", which the registry already has. *)
Lemma add_class_rejects_witness :
  returned (add_class_execute (H := example_host) "car" (example_context example_classes "tree"))
  = inr FINISHED
  ∧ state (add_class_execute (H := example_host) "car" (example_context example_classes "tree"))
    = example_context example_classes "tree"
  ∧ reports (add_class_execute (H := example_host) "car" (example_context example_classes "tree"))
    = [(WARNING, "The class name already exists")].
Proof.
  destruct (add_class_rejects (H := example_host) (example_context example_classes "tree"))
    as (_ & Hdup).
  destruct (Hdup "car") as (Hret & Hstate & Hrep).
  - apply (bool_decide_unpack _). by vm_compute.
  - split; [exact Hret|]. split; [exact Hstate|]. apply Hrep. discriminate.
Defined.

(** C7 on the new name "dog". *)
Lemma add_class_appends_witness :
  classes_of (state (add_class_execute (H := example_host) "dog"
                       (example_context example_classes "car")))
  = example_classes ++ [mkClassEntry "dog" (1, 1, 1)%float]
  ∧ selection_of (state (add_class_execute (H := example_host) "dog"
                           (example_context example_classes "car")))
    = "dog".
Proof.
  destruct (add_class_appends (H := example_host) "dog" (example_context example_classes "car"))
    as (Hcl & _ & _ & Hsel & _).
  - discriminate.
  - apply (bool_decide_unpack _). by vm_compute.
  - split; [exact Hcl|exact Hsel].
Defined.

(** C2 on the selection "car", the entry at index 1. *)
Lemma remove_class_guarded_witness :
  classes_of (state (remove_class_execute (H := example_host)
                       (example_context example_classes "car")))
  = delete 1%nat example_classes
  ∧ returned (remove_class_execute (H := example_host)
                (example_context example_classes "car"))
    = inr FINISHED.
Proof.
  destruct (proj1 (remove_class_guarded (H := example_host)
                     (example_context example_classes "car"))
              1%nat (mkClassEntry "car" black))
    as (previous & _ & Hret & _ & _ & Hcl & _).
  - reflexivity.
  - reflexivity.
  - right. apply (bool_decide_unpack _). by vm_compute.
  - lia.
  - discriminate.
  - split; [exact Hcl|exact Hret].
Defined.

(** C10 on the selection "bird", which the registry does not have. *)
Lemma remove_class_missing_selection_witness :
  returned (remove_class_execute (H := example_host) (example_context example_classes "bird"))
  = inr FINISHED
  ∧ state (remove_class_execute (H := example_host) (example_context example_classes "bird"))
    = example_context example_classes "bird".
Proof.
  destruct (remove_class_missing_selection (H := example_host)
              (example_context example_classes "bird"))
    as (Hret & _ & Hstate & _).
  - apply (bool_decide_unpack _). by vm_compute.
  - split; [exact Hret|exact Hstate].
Defined.

(** C3 on the removal of "car" from the registry of three classes. *)
Lemma registry_inv_preserved_witness :
  registry_inv (H := example_host)
    (classes_of (run_op (H := example_host) RemoveClass (example_context example_classes "car"))).
Proof.
  apply (registry_inv_preserved (H := example_host) RemoveClass).
  split; [simpl; lia|]. split.
  - apply (bool_decide_unpack _). by vm_compute.
  - apply (bool_decide_unpack _). by vm_compute.
Defined.

(** C4 on the scene with frames 1 to 5 and step 2. *)
Lemma render_animation_frames_witness :
  snd (state (render_animation_execute (H := example_host)
                (example_context example_classes "car") []))
  = [mkRenderCall 1 "//out/1" true; mkRenderCall 3 "//out/3" true;
     mkRenderCall 5 "//out/5" true]
  ∧ returned (render_animation_execute (H := example_host)
                (example_context example_classes "car") [])
    = inr FINISHED.
Proof.
  destruct (render_animation_frames (H := example_host)
              (example_context example_classes "car") [])
    as (_ & Hret & Hex).
  - simpl. lia.
  - split; [|exact Hret]. rewrite Hex by reflexivity. reflexivity.
Defined.

(** C5 on the same scene. *)
Lemma render_animation_restores_path_witness :
  restores_path_and_finishes (H := example_host) (example_context example_classes "car") [].
Proof.
  apply (render_animation_restores_path (H := example_host)). simpl. lia.
Defined.

(** ** Where the specification and the code part *)

(** C4, as stated for every scene, fails on a scene whose [frame_step]
    is 0: [range] raises [ValueError], nothing is rendered, although
    frame 1 = [frame_start + 0 * 0] does not exceed [frame_end] = 5. *)
Lemma render_animation_zero_step_renders_nothing :
  returned (render_animation_execute (H := example_host) zero_step_context [])
  = inl Py.ValueError
  ∧ snd (state (render_animation_execute (H := example_host) zero_step_context [])) = []
  ∧ ¬ renders_frame_range (H := example_host) zero_step_context [].
Proof.
  split; [reflexivity|]. split; [reflexivity|].
  intros (frames & Hlog & _ & Hiff).
  destruct frames as [|f frames]; [|discriminate Hlog].
  assert (1 ∈ @nil Z) as Hin; [|by apply not_elem_of_nil in Hin].
  apply Hiff. exists 0. simpl. lia.
Qed.

(** C5, as stated for every scene, fails on the same scene: the operator
    raises [ValueError] and does not return FINISHED. *)
Lemma render_animation_zero_step_not_finished :
  returned (render_animation_execute (H := example_host) zero_step_context [])
  = inl Py.ValueError
  ∧ ¬ restores_path_and_finishes (H := example_host) zero_step_context [].
Proof.
  split; [reflexivity|]. by intros [_ Hret].
Qed.

(** ** More on the class registry: how the operations compose *)

Section RegistryComposition.
Context `{Host}.
Implicit Types (context : Context) (l : list ClassEntry).

Lemma add_class_execute_fresh_selection new_class_name context :
  new_class_name ≠ "" →
  new_class_name ∉ names (classes_of context) →
  selection_of (state (add_class_execute new_class_name context)) = new_class_name.
Proof.
  intros Hne Hnotin. rewrite add_class_execute_fresh by done.
  by destruct (area context).
Qed.

(** What an operation does to the registry and the selection: nothing,
    or the default entry into an empty registry, or a new entry at the
    end, or the removal of the selected entry at an index of at least 1. *)
Lemma run_op_cases op context :
  (classes_of (run_op op context) = classes_of context
   ∧ selection_of (run_op op context) = selection_of context)
  ∨ (classes_of context = []
     ∧ classes_of (run_op op context) = [mkClassEntry DEFAULT_CLASS_NAME (0, 0, 0)%float]
     ∧ selection_of (run_op op context) = selection_of context)
  ∨ (∃ n, n ≠ "" ∧ (n ∉ names (classes_of context))
     ∧ classes_of (run_op op context) = classes_of context ++ [mkClassEntry n placeholder_color]
     ∧ selection_of (run_op op context) = n)
  ∨ (∃ (i : nat) removed previous,
       classes_of context !! S i = Some removed
       ∧ name removed = selection_of context
       ∧ selection_of context ≠ DEFAULT_CLASS_NAME
       ∧ classes_of context !! i = Some previous
       ∧ classes_of (run_op op context) = delete (S i) (classes_of context)
       ∧ selection_of (run_op op context) = name previous).
Proof.
  destruct op as [|new_class_name|]; simpl.
  - unfold onFileLoaded, classes_of, selection_of. simpl.
    destruct (classification_classes (bat_properties (scene context))) as [|c l] eqn:Hl.
    + right. left. by rewrite setDefaultClassName_empty.
    + left. rewrite setDefaultClassName_nonempty; by rewrite Hl.
  - destruct (decide (new_class_name = "")) as [Hempty|Hne].
    { left. rewrite add_class_execute_rejected; [done|by left]. }
    destruct (decide (new_class_name ∈ names (classes_of context))) as [Hin|Hnotin].
    { left. rewrite add_class_execute_rejected; [done|by right]. }
    right. right. left. exists new_class_name.
    by rewrite add_class_execute_fresh_classes, add_class_execute_fresh_selection.
  - destruct (find_range (selection_of context) (classes_of context)) as [Hnone|Hrange].
    { left. rewrite remove_class_execute_noop; [done|]. right. lia. }
    destruct (decide (selection_of context = DEFAULT_CLASS_NAME)) as [Hsel|Hsel].
    { left. rewrite remove_class_execute_noop; [done|]. by left. }
    destruct (Z.to_nat (Coll.find (selection_of context) (classes_of context))) as [|i] eqn:Hi.
    { left. rewrite remove_class_execute_noop; [done|]. right. lia. }
    assert (Coll.find (selection_of context) (classes_of context) = Z.of_nat (S i)) as Hfind by lia.
    pose proof Hfind as (removed & Hrem & Hname & _)%find_Some.
    destruct (classes_of context !! i) as [previous|] eqn:Hprev.
    2:{ apply lookup_ge_None in Hprev. apply lookup_lt_Some in Hrem. lia. }
    right. right. right. exists i, removed, previous.
    by rewrite (remove_class_execute_removes context i previous).
Qed.

Lemma NoDup_delete_absent {A} (x : A) (i : nat) (k : list A) :
  NoDup k → k !! i = Some x → x ∉ delete i k.
Proof.
  intros Hnd Hi. rewrite <- (take_drop_middle k i x Hi) in Hnd.
  rewrite delete_take_drop.
  apply NoDup_app in Hnd as (_ & Hleft & Hright%NoDup_cons).
  intros [Hin|Hin]%elem_of_app.
  - apply (Hleft x Hin). by left.
  - by destruct Hright.
Qed.

Lemma registry_inv_run_op op context :
  registry_inv (classes_of context) → registry_inv (classes_of (run_op op context)).
Proof.
  intros (Hlen & Hdef & Hnd).
  destruct (run_op_cases op context)
    as [[-> _]|[(Hnil & _)|[(n & Hne & Hnotin & -> & _)|(i & removed & previous & Hrem & Hname & Hsel & _ & -> & _)]]].
  - done.
  - rewrite Hnil in Hlen. simpl in Hlen. lia.
  - split_and!.
    + rewrite length_app. lia.
    + rewrite names_app. apply elem_of_app. by left.
    + rewrite names_app. apply NoDup_app. split_and!; [done| |apply NoDup_singleton].
      by intros x Hx ->%list_elem_of_singleton.
  - split_and!.
    + pose proof (lookup_lt_Some _ _ _ Hrem). rewrite length_delete by eauto. lia.
    + rewrite names_delete. apply elem_of_delete_other with (y := name removed); [done| |congruence].
      unfold names. by rewrite list_lookup_fmap, Hrem.
    + rewrite names_delete. eapply sublist_NoDup; [done|apply sublist_delete].
Qed.

Lemma head_run_op op context e :
  classes_of context !! 0%nat = Some e → classes_of (run_op op context) !! 0%nat = Some e.
Proof.
  intros Hhead.
  destruct (run_op_cases op context)
    as [[-> _]|[(Hnil & _)|[(n & _ & _ & -> & _)|(i & removed & previous & _ & _ & _ & _ & -> & _)]]].
  - done.
  - by rewrite Hnil in Hhead.
  - by apply lookup_app_l_Some.
  - rewrite list_lookup_delete_lt by lia. done.
Qed.

(** X1.  The current selection, once it names an entry of the registry,
    names an entry of the registry after every operation. *)
Theorem selection_valid_preserved op context :
  selection_valid context → selection_valid (run_op op context).
Proof.
  unfold selection_valid. intros Hvalid.
  destruct (run_op_cases op context)
    as [[-> ->]|[(Hnil & _)|[(n & _ & _ & -> & ->)|(i & removed & previous & _ & _ & _ & Hprev & -> & ->)]]].
  - done.
  - rewrite Hnil in Hvalid. by apply not_elem_of_nil in Hvalid.
  - rewrite names_app. apply elem_of_app. right. by apply list_elem_of_singleton.
  - apply list_elem_of_fmap. exists previous. split; [done|].
    apply list_elem_of_lookup. exists i. by rewrite list_lookup_delete_lt by lia.
Qed.

(** X2.  No operation changes or removes the first entry of a non-empty
    registry: whatever is at index 0 stays at index 0, name and colour. *)
Theorem first_entry_kept op context e :
  classes_of context !! 0%nat = Some e →
  classes_of (run_op op context) !! 0%nat = Some e.
Proof. apply head_run_op. Qed.

(** X3.  From a scene with an empty registry (a new file), after the
    load handler and then any sequence of operations the registry is
    non-empty, has the reserved default name and no name twice, and its
    first entry is the default entry with colour black. *)
Theorem registry_inv_from_new_file (ops : list RegistryOp) context :
  classes_of context = [] →
  registry_inv (classes_of (run_ops (EnsureDefault :: ops) context))
  ∧ classes_of (run_ops (EnsureDefault :: ops) context) !! 0%nat
    = Some (mkClassEntry DEFAULT_CLASS_NAME (0, 0, 0)%float).
Proof.
  intros Hnil. unfold run_ops. simpl foldl.
  assert (registry_inv (classes_of (onFileLoaded context))
          ∧ classes_of (onFileLoaded context) !! 0%nat
            = Some (mkClassEntry DEFAULT_CLASS_NAME (0, 0, 0)%float)) as Hstart.
  { unfold onFileLoaded, classes_of in *. simpl.
    rewrite setDefaultClassName_empty by done. simpl.
    split; [|done]. split_and!; [done| |apply NoDup_singleton].
    by apply list_elem_of_singleton. }
  revert Hstart. generalize (onFileLoaded context) as c. clear.
  induction ops as [|op ops IH]; intros c (Hinv & Hhead); [done|].
  simpl. apply IH. split; [by apply registry_inv_run_op|by apply head_run_op].
Qed.

(** X4.  In a registry without duplicate names, a removal that passes
    the guard really removes the class: the selected name is no longer
    in the registry, the registry is one shorter, and every other name
    is in the registry after the removal exactly when it was before. *)
Theorem remove_class_name_gone context (i : nat) :
  NoDup (names (classes_of context)) →
  Coll.find (selection_of context) (classes_of context) = Z.of_nat i →
  (1 ≤ i)%nat →
  selection_of context ≠ DEFAULT_CLASS_NAME →
  (selection_of context ∉ names (classes_of (state (remove_class_execute context))))
  ∧ S (length (classes_of (state (remove_class_execute context))))
    = length (classes_of context)
  ∧ ∀ n, n ≠ selection_of context →
         n ∈ names (classes_of (state (remove_class_execute context)))
         ↔ n ∈ names (classes_of context).
Proof.
  intros Hnd Hfind Hi Hsel. destruct i as [|i]; [lia|].
  pose proof Hfind as (removed & Hrem & Hname & _)%find_Some.
  destruct (classes_of context !! i) as [previous|] eqn:Hprev.
  2:{ apply lookup_ge_None in Hprev. apply lookup_lt_Some in Hrem. lia. }
  rewrite (remove_class_execute_removes context i previous) by done.
  assert (names (classes_of context) !! S i = Some (selection_of context)) as Hat.
  { unfold names. by rewrite list_lookup_fmap, Hrem, <- Hname. }
  change (classes_of (state (finished (after_removal (S i) previous context) [])))
    with (delete (S i) (classes_of context)).
  rewrite names_delete. split_and!.
  - by apply NoDup_delete_absent.
  - pose proof (lookup_lt_Some _ _ _ Hrem). rewrite length_delete by eauto. lia.
  - intros n Hn. split.
    + apply list_elem_of_delete_inv.
    + intros Hin. by apply elem_of_delete_other with (y := selection_of context).
Qed.

(** X5.  Adding a class and removing it at once gives the registry back:
    after [add_class_execute] with a new, non-empty name other than the
    reserved default on a non-empty registry, [remove_class_execute]
    returns FINISHED and leaves the registry as it was before the
    addition; the selection is then the last entry of that registry (not
    the selection from before the addition). *)
Theorem add_then_remove_restores new_class_name context :
  classes_of context ≠ [] →
  new_class_name ≠ "" →
  new_class_name ≠ DEFAULT_CLASS_NAME →
  new_class_name ∉ names (classes_of context) →
  let added := state (add_class_execute new_class_name context) in
  returned (remove_class_execute added) = inr FINISHED
  ∧ classes_of (state (remove_class_execute added)) = classes_of context
  ∧ ∃ e, last (classes_of context) = Some e
         ∧ selection_of (state (remove_class_execute added)) = name e.
Proof.
  intros Hnonempty Hne Hdef Hnotin added.
  assert (classes_of added = classes_of context ++ [mkClassEntry new_class_name placeholder_color])
    as Hcl by (by apply add_class_execute_fresh_classes).
  assert (selection_of added = new_class_name)
    as Hsel by (by apply add_class_execute_fresh_selection).
  destruct (classes_of context) as [|c l] eqn:Hl using rev_ind; [done|]. clear IHl.
  rewrite last_snoc.
  assert (Coll.find (selection_of added) (classes_of added) = Z.of_nat (S (length l))) as Hfind.
  { apply find_Some. exists (mkClassEntry new_class_name placeholder_color).
    rewrite Hcl, Hsel. split_and!.
    - rewrite lookup_app_r; rewrite length_app; simpl; [|lia].
      by replace (S (length l) - (length l + 1))%nat with 0%nat by lia.
    - done.
    - intros j e' Hj Hlt <-. apply Hnotin.
      rewrite lookup_app_l in Hj by (rewrite length_app; simpl; lia).
      apply list_elem_of_fmap. exists e'. split; [done|]. by eapply list_elem_of_lookup_2. }
  rewrite (remove_class_execute_removes added (length l) c).
  - split; [done|]. split; [|by exists c].
    change (classes_of (state (finished (after_removal (S (length l)) c added) [])))
      with (delete (S (length l)) (classes_of added)).
    rewrite Hcl. replace (S (length l)) with (length (l ++ [c])) by (rewrite length_app; simpl; lia).
    by rewrite delete_middle, app_nil_r.
  - done.
  - by rewrite Hsel.
  - rewrite Hcl, <- app_assoc. by rewrite lookup_app_r, Nat.sub_diag by lia.
Qed.

(** X6.  Adding the same name twice: after an addition that went
    through, [add_class_execute] with the same name again changes
    nothing, reports the WARNING and returns FINISHED. *)
Theorem add_class_twice new_class_name context :
  new_class_name ≠ "" →
  new_class_name ∉ names (classes_of context) →
  let added := state (add_class_execute new_class_name context) in
  returned (add_class_execute new_class_name added) = inr FINISHED
  ∧ state (add_class_execute new_class_name added) = added
  ∧ reports (add_class_execute new_class_name added)
    = [(WARNING, "The class name already exists")].
Proof.
  intros Hne Hnotin added.
  assert (new_class_name ∈ names (classes_of added)) as Hin.
  { unfold added. rewrite add_class_execute_fresh_classes, names_app by done.
    apply elem_of_app. right. by apply list_elem_of_singleton. }
  unfold add_class_execute at 1 2 3.
  rewrite bool_decide_eq_false_2 by done. by rewrite bool_decide_eq_true_2.
Qed.

(** X7.  With no area in the context, an addition that passes both
    checks raises [AttributeError] in the redraw loop, after the class
    has been added and selected: the registry and the selection are
    changed all the same. *)
Theorem add_class_without_area new_class_name context :
  area context = None →
  new_class_name ≠ "" →
  new_class_name ∉ names (classes_of context) →
  returned (add_class_execute new_class_name context) = inl Py.AttributeError
  ∧ classes_of (state (add_class_execute new_class_name context))
    = classes_of context ++ [mkClassEntry new_class_name placeholder_color]
  ∧ selection_of (state (add_class_execute new_class_name context)) = new_class_name.
Proof.
  intros Harea Hne Hnotin. rewrite add_class_execute_fresh by done. by rewrite Harea.
Qed.

End RegistryComposition.

(** ** More on the animation loop *)

Section AnimationFrames.
Context `{Host}.
Implicit Types (context : Context) (scene : Scene) (log : list RenderCall).

Lemma frame_set_loop_last (frames : list Z) scene :
  foldl (λ sc f, frame_set f sc) scene frames
  = match last frames with Some f => frame_set f scene | None => scene end.
Proof.
  induction frames as [|f frames IH] using rev_ind; [done|].
  rewrite foldl_app, last_snoc. simpl. rewrite IH. by destruct (last frames).
Qed.

Lemma range_items_length lo hi step :
  length (Py.range_items lo hi step) = Z.to_nat (Py.range_len lo hi step).
Proof. unfold Py.range_items. by rewrite length_fmap, length_seqZ. Qed.

Lemma range_len_inclusive first last step :
  1 ≤ step → first ≤ last →
  Py.range_len first (last + 1) step = (last - first) / step + 1.
Proof.
  intros Hstep Hle. unfold Py.range_len.
  rewrite (proj2 (Z.ltb_lt 0 step)) by lia.
  rewrite (proj2 (Z.ltb_lt first (last + 1))) by lia.
  replace (last + 1 - 1 - first) with (last - first) by lia. lia.
Qed.

Lemma range_items_last first last step :
  1 ≤ step → first ≤ last →
  list.last (Py.range_items first (last + 1) step)
  = Some (first + (last - first) / step * step).
Proof.
  intros Hstep Hle. rewrite last_lookup, range_items_length.
  rewrite range_len_inclusive by done.
  pose proof (Z.div_pos (last - first) step ltac:(lia) ltac:(lia)) as Hq.
  unfold Py.range_items. rewrite list_lookup_fmap, range_len_inclusive by done.
  set (q := (last - first) / step) in *.
  replace (Nat.pred (Z.to_nat (q + 1))) with (Z.to_nat q) by lia.
  rewrite lookup_seqZ_lt by lia. rewrite Z2Nat.id by done.
  simpl. by rewrite Z.add_0_l.
Qed.

Lemma range_items_empty first last step :
  1 ≤ step → last < first → Py.range_items first (last + 1) step = [].
Proof.
  intros Hstep Hlt. unfold Py.range_items, Py.range_len.
  rewrite (proj2 (Z.ltb_lt 0 step)) by lia.
  rewrite (proj2 (Z.ltb_ge first (last + 1))) by lia.
  by rewrite seqZ_nil.
Qed.

(** X8.  Whatever the frame range and step (zero included), the operator
    changes nothing of the context but the current frame of the scene:
    the class properties, the frame range and step, the render settings
    and the area are what they were. *)
Theorem render_animation_only_moves_frame context log :
  let context' := fst (state (render_animation_execute context log)) in
  area context' = area context
  ∧ bat_properties (scene context') = bat_properties (scene context)
  ∧ frame_start (scene context') = frame_start (scene context)
  ∧ frame_end (scene context') = frame_end (scene context)
  ∧ frame_step (scene context') = frame_step (scene context)
  ∧ render (scene context') = render (scene context).
Proof.
  destruct (decide (frame_step (scene context) = 0)) as [Hzero|Hstep].
  - by rewrite render_animation_execute_zero.
  - rewrite render_animation_execute_nonzero by done. simpl.
    rewrite frame_set_loop_last. by destruct (last _).
Qed.

(** X9.  With a step of at least 1 and [frame_start <= frame_end], the
    operator makes [(frame_end - frame_start) / frame_step + 1] renders
    and leaves the scene at the last frame rendered,
    [frame_start + (frame_end - frame_start) / frame_step * frame_step]. *)
Theorem render_animation_count context log :
  1 ≤ frame_step (scene context) →
  frame_start (scene context) ≤ frame_end (scene context) →
  let sc := scene context in
  let out := render_animation_execute context log in
  Z.of_nat (length (snd (state out)))
  = Z.of_nat (length log) + (frame_end sc - frame_start sc) / frame_step sc + 1
  ∧ frame_current (scene (fst (state out)))
    = frame_start sc + (frame_end sc - frame_start sc) / frame_step sc * frame_step sc.
Proof.
  intros Hstep Hle sc out. subst sc out.
  rewrite render_animation_execute_nonzero by lia. simpl.
  pose proof (Z.div_pos (frame_end (scene context) - frame_start (scene context))
                (frame_step (scene context)) ltac:(lia) ltac:(lia)) as Hq.
  split.
  - rewrite length_app, length_fmap, range_items_length, range_len_inclusive by done. lia.
  - by rewrite frame_set_loop_last, range_items_last.
Qed.

(** X10.  With a step of at least 1 and [frame_end < frame_start] the
    range is empty: the operator renders nothing, leaves the context
    (current frame included) as it is and returns FINISHED. *)
Theorem render_animation_empty_range context log :
  1 ≤ frame_step (scene context) →
  frame_end (scene context) < frame_start (scene context) →
  render_animation_execute context log = finished (context, log) [].
Proof.
  intros Hstep Hlt. rewrite render_animation_execute_nonzero by lia.
  rewrite range_items_empty by done. simpl. rewrite app_nil_r.
  by destruct context.
Qed.

End AnimationFrames.

(** ** More on the colours *)

Section PaletteRange.

Lemma channel_level_bounds x :
  x ∈ channel_range →
  Py.float_lt 0 (Py.truediv x 255) = true ∧ Py.float_lt (Py.truediv x 255) 1 = true.
Proof.
  rewrite channel_range_values. intros Hin.
  repeat (apply elem_of_cons in Hin as [->|Hin]; [split; reflexivity|]).
  by apply not_elem_of_nil in Hin.
Qed.

Lemma lookup_all {A} (k : list A) :
  (λ i, k !! i) <$> seq 0 (length k) = Some <$> k.
Proof.
  apply list_eq. intros i. rewrite !list_lookup_fmap.
  destruct (decide (i < length k)%nat) as [Hlt|Hge].
  - rewrite lookup_seq_lt by done. simpl.
    destruct (lookup_lt_is_Some_2 k i Hlt) as [x Hx]. by rewrite Hx.
  - rewrite lookup_seq_ge by lia. by rewrite (proj2 (lookup_ge_None k i)) by lia.
Qed.

Lemma lookup_past_end {A} (k : list A) (n : nat) :
  (λ i, k !! i) <$> seq (length k) n = replicate n None.
Proof.
  apply list_eq. intros i. rewrite list_lookup_fmap.
  destruct (decide (i < n)%nat) as [Hlt|Hge].
  - rewrite lookup_seq_lt, lookup_replicate_2 by done. simpl.
    by rewrite (proj2 (lookup_ge_None k _)) by lia.
  - rewrite lookup_seq_ge by lia. symmetry. apply lookup_replicate_None. lia.
Qed.

(** The position of a generator after [n] draws. *)
Lemma gen_draws_position n (g : GenId) (h : GenHeap) (pos : nat) :
  h !! g = Some pos →
  (gen_draws n g h).2 !! g = Some ((pos + n) `min` (pos `max` length INSTANCE_COLORS))%nat.
Proof.
  revert h pos. induction n as [|n IH]; intros h pos Hpos.
  - simpl. rewrite Hpos. f_equal. lia.
  - simpl. unfold gen_next. rewrite Hpos.
    destruct (INSTANCE_COLORS !! pos) as [color|] eqn:Hc.
    + destruct (gen_draws n g (<[g:=S pos]> h)) as [cs h2] eqn:Hrest. simpl.
      replace h2 with (gen_draws n g (<[g:=S pos]> h)).2 by (by rewrite Hrest).
      rewrite (IH _ (S pos)) by apply lookup_insert_eq.
      apply lookup_lt_Some in Hc. f_equal. lia.
    + destruct (gen_draws n g h) as [cs h2] eqn:Hrest. simpl.
      replace h2 with (gen_draws n g h).2 by (by rewrite Hrest).
      rewrite (IH _ pos Hpos). apply lookup_ge_None in Hc. f_equal. lia.
Qed.

End PaletteRange.

(** X11.  Each colour of the palette has its three channels strictly
    between 0 and 1 and alpha 1; no colour of the palette is black or
    white. *)
Theorem instance_colors_in_range (r g b : float) (a : Z) :
  (r, g, b, a) ∈ INSTANCE_COLORS →
  a = 1
  ∧ Py.float_lt 0 r = true ∧ Py.float_lt r 1 = true
  ∧ Py.float_lt 0 g = true ∧ Py.float_lt g 1 = true
  ∧ Py.float_lt 0 b = true ∧ Py.float_lt b 1 = true.
Proof.
  intros (r0 & g0 & b0 & Hr & Hg & Hb & Heq)%elem_of_INSTANCE_COLORS.
  injection Heq as -> -> -> ->.
  destruct (channel_level_bounds r0 Hr), (channel_level_bounds g0 Hg),
    (channel_level_bounds b0 Hb).
  by split_and!.
Qed.

Lemma instance_colors_in_range_witness :
  Py.float_lt 0 (Py.truediv 230 255) = true ∧ Py.float_lt (Py.truediv 10 255) 1 = true.
Proof.
  destruct (instance_colors_in_range (Py.truediv 230 255) (Py.truediv 230 255)
              (Py.truediv 10 255) 1)
    as (_ & Hr & _ & _ & _ & _ & Hb).
  - apply list_elem_of_lookup. exists 22%nat.
    pose proof (INSTANCE_COLORS_lookup 0 0 22) as Hpos.
    change (Z.to_nat _) with 22%nat in Hpos. by apply Hpos.
  - split; [exact Hr|exact Hb].
Defined.

(** X12.  A new generator yields the colours of [INSTANCE_COLORS] in
    order, 23 * 23 * 23 of them, and then [StopIteration] at every
    further draw; its position stays at the end of the list. *)
Theorem instance_color_exhaustion (h : GenHeap) (n : nat) :
  let g := (instance_color h).1 in
  let h' := (instance_color h).2 in
  (gen_draws (length INSTANCE_COLORS + n) g h').1
  = (Some <$> INSTANCE_COLORS) ++ replicate n None
  ∧ (gen_draws (length INSTANCE_COLORS + n) g h').2 !! g = Some (length INSTANCE_COLORS)
  ∧ length INSTANCE_COLORS = (23 * 23 * 23)%nat.
Proof.
  intros g h'. subst g h'. split_and!.
  - rewrite (gen_draws_from _ _ _ 0%nat) by apply instance_color_start.
    rewrite seq_app, fmap_app.
    change (λ i : nat, INSTANCE_COLORS !! (0 + i)%nat) with (λ i : nat, INSTANCE_COLORS !! i).
    by rewrite lookup_all, lookup_past_end.
  - rewrite (gen_draws_position _ _ _ 0%nat) by apply instance_color_start.
    f_equal. lia.
  - apply INSTANCE_COLORS_length.
Qed.

(** ** The render-write handler *)

Section RenderWrite.
Implicit Types (c : HandlerContext) (override : ContextDict) (ws : list Window).

Lemma region_loop_spec (rs : list Region) override :
  region_loop rs override
  = match list_find (λ r, region_type r = "WINDOW") rs with
    | Some (_, r) =>
        mkContextDict (dict_window override) (dict_screen override) (dict_area override) (Some r)
    | None => override
    end.
Proof.
  induction rs as [|r rs IH]; [done|].
  simpl. case_bool_decide as Hr.
  - by rewrite decide_True.
  - rewrite decide_False by done. rewrite IH.
    by destruct (list_find _ rs) as [[i r']|].
Qed.

Lemma area_loop_view3d (window : Window) (l : list ScreenArea) override :
  foldl (area_body window) override l
  = foldl view3d_body override
      (area ← l; if bool_decide (area_type area = "VIEW_3D") then [(window, area)] else []).
Proof.
  revert override. induction l as [|a l IH]; intros override; [done|].
  rewrite bind_cons, foldl_app. simpl. rewrite IH. unfold area_body.
  by case_bool_decide.
Qed.

Lemma window_loop_view3d ws override :
  foldl window_body override ws = foldl view3d_body override (view3d_areas ws).
Proof.
  revert override. induction ws as [|w ws IH]; intros override; [done|].
  unfold view3d_areas. rewrite bind_cons, foldl_app. simpl.
  unfold window_body at 2. rewrite area_loop_view3d. apply IH.
Qed.

(** The loops in closed form: the window, screen and area of the last
    area of type 'VIEW_3D', and the region of the last such area that has
    a region of type 'WINDOW'. *)
Lemma view3d_loop_closed (ps : list (Window * ScreenArea)) override :
  foldl view3d_body override ps
  = mkContextDict
      (match last ps with Some p => Some p.1 | None => dict_window override end)
      (match last ps with Some p => Some (screen p.1) | None => dict_screen override end)
      (match last ps with Some p => Some p.2 | None => dict_area override end)
      (match last (omap (λ p, first_window_region p.2) ps) with
       | Some r => Some r
       | None => dict_region override
       end).
Proof.
  induction ps as [|p ps IH] using rev_ind; [by destruct override|].
  rewrite foldl_app, last_snoc, omap_app. simpl. rewrite IH.
  unfold view3d_body, first_window_region. rewrite region_loop_spec. simpl.
  destruct (list_find _ (area_regions p.2)) as [[i r]|]; simpl.
  - by rewrite last_snoc.
  - by rewrite app_nil_r.
Qed.

Lemma elem_of_view3d_areas ws (window : Window) (area : ScreenArea) :
  (window, area) ∈ view3d_areas ws
  ↔ window ∈ ws ∧ area ∈ areas (screen window) ∧ area_type area = "VIEW_3D".
Proof.
  unfold view3d_areas. rewrite list_elem_of_bind. split.
  - intros (w & Hin & Hw). apply list_elem_of_bind in Hin as (a & Hin & Ha).
    case_bool_decide; [|by apply not_elem_of_nil in Hin].
    apply list_elem_of_singleton in Hin. by injection Hin as -> ->.
  - intros (Hw & Ha & Htype). exists window. split; [|done].
    apply list_elem_of_bind. exists area. split; [|done].
    rewrite bool_decide_eq_true_2 by done. by apply list_elem_of_singleton.
Qed.

Lemma onRenderWrite_enabled scene c :
  save_annotation (bat_properties scene) = true →
  onRenderWrite scene c
  = (mkHandlerContext (mkWindowManager (windows (window_manager c)) true)
       (context_window c) (context_screen c) (context_area c) (context_region c),
     [foldl view3d_body (context_copy c) (view3d_areas (windows (window_manager c)))]).
Proof.
  intros Hflag. unfold onRenderWrite. rewrite Hflag. simpl.
  by rewrite window_loop_view3d.
Qed.

(** X13.  The handler calls the annotation operator once when the
    scene's [save_annotation] flag is set and not at all otherwise; it
    never changes the list of windows or the members of the context, and
    [write_still] is set when the flag is set and left as it is
    otherwise. *)
Theorem onRenderWrite_calls scene c :
  length (onRenderWrite scene c).2 = (if save_annotation (bat_properties scene) then 1 else 0)%nat
  ∧ windows (window_manager (onRenderWrite scene c).1) = windows (window_manager c)
  ∧ context_copy (onRenderWrite scene c).1 = context_copy c
  ∧ opengl_write_still (window_manager (onRenderWrite scene c).1)
    = save_annotation (bat_properties scene) || opengl_write_still (window_manager c).
Proof.
  destruct (save_annotation (bat_properties scene)) eqn:Hflag.
  - by rewrite onRenderWrite_enabled.
  - unfold onRenderWrite. by rewrite Hflag.
Qed.

(** X14.  With the flag set and at least one area of type 'VIEW_3D' in
    some window, the override the operator is called with has the last
    such area (windows in order, areas in order within a window), the
    window it is in and the screen of that window; when that area has a
    region of type 'WINDOW', the override has the first such region. *)
Theorem onRenderWrite_last_view3d scene c (window : Window) (area : ScreenArea) :
  save_annotation (bat_properties scene) = true →
  last (view3d_areas (windows (window_manager c))) = Some (window, area) →
  ∃ override,
    (onRenderWrite scene c).2 = [override]
    ∧ dict_window override = Some window
    ∧ dict_screen override = Some (screen window)
    ∧ dict_area override = Some area
    ∧ window ∈ windows (window_manager c)
    ∧ area ∈ areas (screen window)
    ∧ area_type area = "VIEW_3D"
    ∧ ∀ r, first_window_region area = Some r → dict_region override = Some r.
Proof.
  intros Hflag Hlast. pose proof Hlast as Hlast'.
  rewrite onRenderWrite_enabled by done. simpl.
  eexists. split; [done|]. rewrite view3d_loop_closed, Hlast. simpl.
  apply last_Some_elem_of, elem_of_view3d_areas in Hlast' as (Hw & Ha & Htype).
  split_and!; try done.
  intros r Hr. apply last_Some in Hlast as (ps & ->).
  rewrite omap_app. simpl. rewrite Hr. simpl. by rewrite last_snoc.
Qed.

(** X15.  With the flag set and no area of type 'VIEW_3D' in any
    window, the operator is called all the same, with the plain copy of
    the context: none of the four keys is assigned. *)
Theorem onRenderWrite_no_view3d scene c :
  save_annotation (bat_properties scene) = true →
  (∀ window area, window ∈ windows (window_manager c) →
                  area ∈ areas (screen window) → area_type area ≠ "VIEW_3D") →
  (onRenderWrite scene c).2 = [context_copy c].
Proof.
  intros Hflag Hnone. rewrite onRenderWrite_enabled by done. simpl.
  assert (view3d_areas (windows (window_manager c)) = []) as ->; [|done].
  unfold view3d_areas. induction (windows (window_manager c)) as [|w ws IH]; [done|].
  rewrite bind_cons, IH.
  2:{ intros window area Hw. apply Hnone. by right. }
  rewrite app_nil_r.
  assert (∀ area, area ∈ areas (screen w) → area_type area ≠ "VIEW_3D") as Hw.
  { intros area. apply Hnone. by left. }
  induction (areas (screen w)) as [|a l IHl]; [done|].
  rewrite bind_cons, IHl by (intros area Ha; apply Hw; by right).
  rewrite bool_decide_eq_false_2; [done|]. apply Hw. by left.
Qed.

(** X16.  With the flag set, the region of the override is the first
    region of type 'WINDOW' of the last area of type 'VIEW_3D' that has
    such a region, whether or not that is the area of the override; when
    no area of type 'VIEW_3D' has one, it is the region of the context. *)
Theorem onRenderWrite_region scene c :
  save_annotation (bat_properties scene) = true →
  ∃ override,
    (onRenderWrite scene c).2 = [override]
    ∧ dict_region override
      = match last (omap (λ p, first_window_region p.2)
                      (view3d_areas (windows (window_manager c)))) with
        | Some r => Some r
        | None => context_region c
        end.
Proof.
  intros Hflag. rewrite onRenderWrite_enabled by done. simpl.
  eexists. split; [done|]. by rewrite view3d_loop_closed.
Qed.

End RenderWrite.

(** ** Registration *)

Section Registration.
Implicit Types (fn : Handler) (l : list Handler) (app : App).
Implicit Types (cls : OperatorClass) (cs reg : list OperatorClass).

Lemma list_remove_first fn l1 l2 :
  fn ∉ l1 → Py.list_remove fn (l1 ++ fn :: l2) = inr (l1 ++ l2).
Proof.
  induction l1 as [|y l1 IH]; intros Hnotin; simpl.
  - by rewrite decide_True.
  - apply not_elem_of_cons in Hnotin as [Hne Hnotin].
    rewrite decide_False by done. by rewrite IH.
Qed.

Lemma remove_if_in_first_removed fn l :
  ∃ l', remove_if_in fn l = inr l' ∧ first_removed fn l l'.
Proof.
  unfold remove_if_in. case_bool_decide as Hin.
  - apply list_elem_of_split_l in Hin as (l1 & l2 & -> & Hnotin).
    exists (l1 ++ l2). split; [by apply list_remove_first|].
    right. by exists l1, l2.
  - exists l. split; [done|]. by left.
Qed.

Lemma remove_if_in_appended fn l :
  fn ∉ l → remove_if_in fn (l ++ [fn]) = inr l.
Proof.
  intros Hnotin. unfold remove_if_in.
  rewrite bool_decide_eq_true_2 by (apply elem_of_app; right; by left).
  by rewrite list_remove_first, app_nil_r.
Qed.

Lemma first_removed_twice fn l l' :
  first_removed fn ((l ++ [fn]) ++ [fn]) l' → fn ∈ l'.
Proof.
  intros [[Hnotin _]|(l1 & l2 & Heq & Hnotin & ->)].
  - destruct Hnotin. apply elem_of_app. right. by left.
  - apply elem_of_app.
    assert (fn ∈ l1 ++ l2 ∨ length l2 = 0%nat) as [Hin|Hnil].
    { destruct l2 as [|z l2 _] using rev_ind; [by right|left].
      rewrite app_comm_cons, app_assoc in Heq.
      apply app_inj_tail in Heq as [_ <-].
      apply elem_of_app. right. apply elem_of_app. right. by left. }
    + by apply elem_of_app in Hin.
    + destruct l2; [|done]. apply app_inj_tail in Heq as [<- _].
      left. apply elem_of_app. right. by left.
Qed.

(** What [register] leaves: the handlers are appended before the class
    loop, whatever that loop does. *)
Lemma register_spec app :
  register app
  = (mkApp (mkHandlers (depsgraph_update_pre (handlers app) ++ [fn_onRegister])
                       (load_post (handlers app) ++ [fn_onFileLoaded])
                       (render_write (handlers app) ++ [fn_onRenderWrite]))
           (for_classes register_class classes (registered app)).1,
     (for_classes register_class classes (registered app)).2).
Proof. unfold register. by destruct (for_classes _ _ _). Qed.

(** What [unregister] leaves: the guarded removals all return, and the
    class loop comes after them. *)
Lemma unregister_spec app :
  ∃ l1 l2 l3,
    first_removed fn_onRegister (depsgraph_update_pre (handlers app)) l1
    ∧ first_removed fn_onFileLoaded (load_post (handlers app)) l2
    ∧ first_removed fn_onRenderWrite (render_write (handlers app)) l3
    ∧ remove_if_in fn_onRegister (depsgraph_update_pre (handlers app)) = inr l1
    ∧ remove_if_in fn_onFileLoaded (load_post (handlers app)) = inr l2
    ∧ remove_if_in fn_onRenderWrite (render_write (handlers app)) = inr l3
    ∧ unregister app
      = (mkApp (mkHandlers l1 l2 l3)
           (for_classes unregister_class (Py.reversed classes) (registered app)).1,
         (for_classes unregister_class (Py.reversed classes) (registered app)).2).
Proof.
  unfold unregister.
  destruct (remove_if_in_first_removed fn_onRegister (depsgraph_update_pre (handlers app)))
    as (l1 & E1 & H1).
  destruct (remove_if_in_first_removed fn_onFileLoaded (load_post (handlers app)))
    as (l2 & E2 & H2).
  destruct (remove_if_in_first_removed fn_onRenderWrite (render_write (handlers app)))
    as (l3 & E3 & H3).
  exists l1, l2, l3. rewrite E1, E2, E3. split_and!; try done.
  by destruct (for_classes _ _ _).
Qed.

Lemma classes_NoDup : NoDup classes.
Proof. apply (bool_decide_unpack _). by vm_compute. Qed.

Lemma filter_other_snoc cls reg :
  cls ∉ reg → filter (λ c, c ≠ cls) (reg ++ [cls]) = reg.
Proof.
  intros Hnotin. induction reg as [|c reg IH]; simpl.
  - rewrite filter_cons_False by (by intros []). done.
  - apply not_elem_of_cons in Hnotin as [Hne Hnotin].
    rewrite filter_cons_True by done. by rewrite IH.
Qed.

(** Registering classes none of which is registered: all calls return. *)
Lemma for_classes_register_new cs reg :
  NoDup cs → Forall (λ cls, cls ∉ reg) cs →
  for_classes register_class cs reg = (reg ++ cs, None).
Proof.
  revert reg. induction cs as [|c cs IH]; intros reg Hnd Hnew; simpl.
  - by rewrite app_nil_r.
  - apply NoDup_cons in Hnd as [Hc Hnd]. apply Forall_cons in Hnew as [Hnew Hrest].
    unfold register_class. rewrite bool_decide_eq_false_2 by done.
    rewrite IH, <- app_assoc; [done..|].
    rewrite Forall_forall in Hrest.
    apply Forall_forall. intros x Hx [Hin|Hin%list_elem_of_singleton]%elem_of_app.
    + by apply (Hrest x Hx).
    + by subst.
Qed.

(** A class loop of [register_class] that returned has kept what was
    registered and has registered its classes. *)
Lemma for_classes_register_kept cs reg reg' :
  for_classes register_class cs reg = (reg', None) →
  ∀ cls, cls ∈ reg → cls ∈ reg'.
Proof.
  revert reg. induction cs as [|c cs IH]; intros reg Hret cls Hin; simpl in Hret.
  - by injection Hret as <-.
  - unfold register_class in Hret. case_bool_decide as Hc; [done|].
    apply (IH _ Hret). apply elem_of_app. by left.
Qed.

Lemma for_classes_register_returned cs reg reg' :
  for_classes register_class cs reg = (reg', None) →
  ∀ cls, cls ∈ cs → cls ∈ reg'.
Proof.
  revert reg. induction cs as [|c cs IH]; intros reg Hret cls Hin; simpl in Hret.
  - by apply not_elem_of_nil in Hin.
  - unfold register_class in Hret. case_bool_decide as Hc; [done|].
    apply elem_of_cons in Hin as [->|Hin]; [|by eapply IH].
    apply (for_classes_register_kept _ _ _ Hret). apply elem_of_app. right. by left.
Qed.

(** Unregistering, last first, classes that were registered last. *)
Lemma for_classes_unregister_appended cs reg :
  NoDup cs → Forall (λ cls, cls ∉ reg) cs →
  for_classes unregister_class (reverse cs) (reg ++ cs) = (reg, None).
Proof.
  induction cs as [|c cs IH] using rev_ind; intros Hnd Hnew.
  - by rewrite app_nil_r.
  - apply NoDup_app in Hnd as (Hnd & Hc & _).
    apply Forall_app in Hnew as [Hnew Hlast].
    apply (proj1 (Forall_singleton _ _)) in Hlast.
    rewrite reverse_snoc. simpl. unfold unregister_class.
    rewrite bool_decide_eq_true_2 by (rewrite app_assoc; apply elem_of_app; right; by left).
    rewrite app_assoc, filter_other_snoc; [by apply IH|].
    intros [Hin|Hin]%elem_of_app; [by apply Hlast|]. apply (Hc c Hin). by left.
Qed.




(** X18.  When none of the three handlers is registered yet,
    [unregister] after [register] gives the three handler lists back as
    they were, handlers of others included and in their order, whatever
    the class loops do.  When, moreover, none of the four classes is
    registered, both calls return and the classes registered with the
    host are those from before. *)
Theorem register_then_unregister app :
  fn_onRegister ∉ depsgraph_update_pre (handlers app) →
  fn_onFileLoaded ∉ load_post (handlers app) →
  fn_onRenderWrite ∉ render_write (handlers app) →
  handlers (unregister (register app).1).1 = handlers app
  ∧ (Forall (λ cls, cls ∉ registered app) classes →
     (register app).2 = None
     ∧ (unregister (register app).1).2 = None
     ∧ registered (unregister (register app).1).1 = registered app).
Proof.
  intros H1 H2 H3.
  destruct (unregister_spec (register app).1) as (l1 & l2 & l3 & _ & _ & _ & E1 & E2 & E3 & ->).
  rewrite register_spec in *.
  cbn [fst snd handlers registered depsgraph_update_pre load_post render_write] in *.
  rewrite remove_if_in_appended in E1, E2, E3 by done.
  injection E1 as <-. injection E2 as <-. injection E3 as <-.
  split; [by destruct (handlers app)|].
  intros Hnew. rewrite for_classes_register_new by (done || apply classes_NoDup).
  cbn [fst snd]. unfold Py.reversed.
  by rewrite for_classes_unregister_appended by (done || apply classes_NoDup).
Qed.

(** X19.  [unregister] undoes one [register] only: after two calls of
    [register] and one of [unregister], each of the three handlers is
    still in its list.  When the first [register] returned, the second
    raises [ValueError] at its first class, after it has appended the
    handlers again, and registers nothing. *)
Theorem register_twice_unregister_once app :
  let once := (register app).1 in
  let twice := (register once).1 in
  fn_onRegister ∈ depsgraph_update_pre (handlers (unregister twice).1)
  ∧ fn_onFileLoaded ∈ load_post (handlers (unregister twice).1)
  ∧ fn_onRenderWrite ∈ render_write (handlers (unregister twice).1)
  ∧ ((register app).2 = None →
     (register once).2 = Some Py.ValueError ∧ registered twice = registered once).
Proof.
  intros once twice. subst once twice.
  destruct (unregister_spec (register (register app).1).1)
    as (l1 & l2 & l3 & H1 & H2 & H3 & _ & _ & _ & ->).
  rewrite !register_spec in *.
  cbn [fst snd handlers registered depsgraph_update_pre load_post render_write] in *.
  split_and!; try by eapply first_removed_twice.
  intros Hret.
  assert (BAT_OT_render_annotation ∈ (for_classes register_class classes (registered app)).1)
    as Hin.
  { apply (for_classes_register_returned classes (registered app)); [|by left].
    destruct (for_classes register_class classes (registered app)) as [r e].
    cbn [fst snd] in *. by subst. }
  set (once := (for_classes register_class classes (registered app)).1) in *.
  assert (register_class BAT_OT_render_annotation once = inl Py.ValueError) as Hraise.
  { unfold register_class. by rewrite bool_decide_eq_true_2. }
  unfold classes. cbn [for_classes]. by rewrite Hraise.
Qed.

End Registration.

(** ** The further theorems at concrete inputs *)

(** X1 on the removal of "car", which selects "Background". *)
Lemma selection_valid_preserved_witness :
  selection_valid (run_op (H := example_host) RemoveClass (example_context example_classes "car")).
Proof.
  apply (selection_valid_preserved (H := example_host) RemoveClass).
  apply (bool_decide_unpack _). by vm_compute.
Defined.

(** X2 on the removal of "car". *)
Lemma first_entry_kept_witness :
  classes_of (run_op (H := example_host) RemoveClass (example_context example_classes "car"))
    !! 0%nat
  = Some (mkClassEntry "Background" black).
Proof.
  apply (first_entry_kept (H := example_host) RemoveClass). reflexivity.
Defined.

(** X3 on a new file in which "car" is added and removed again. *)
Lemma registry_inv_from_new_file_witness :
  registry_inv (H := example_host)
    (classes_of (run_ops (H := example_host)
                   [EnsureDefault; AddClass "car"; RemoveClass; RemoveClass] new_file_context))
  ∧ classes_of (run_ops (H := example_host)
                  [EnsureDefault; AddClass "car"; RemoveClass; RemoveClass] new_file_context)
      !! 0%nat
    = Some (mkClassEntry "Background" black).
Proof.
  apply (registry_inv_from_new_file (H := example_host) [AddClass "car"; RemoveClass; RemoveClass]).
  reflexivity.
Defined.

(** X4 on the removal of "car" from the registry of three classes. *)
Lemma remove_class_name_gone_witness :
  ("car" ∉ names (classes_of (state (remove_class_execute (H := example_host)
                                        (example_context example_classes "car")))))
  ∧ S (length (classes_of (state (remove_class_execute (H := example_host)
                                     (example_context example_classes "car")))))
    = 3%nat.
Proof.
  destruct (remove_class_name_gone (H := example_host)
              (example_context example_classes "car") 1%nat)
    as (Hgone & Hlen & _).
  - apply (bool_decide_unpack _). by vm_compute.
  - reflexivity.
  - lia.
  - discriminate.
  - split; [exact Hgone|exact Hlen].
Defined.

(** X5 on the name "dog". *)
Lemma add_then_remove_restores_witness :
  classes_of (state (remove_class_execute (H := example_host)
                       (state (add_class_execute (H := example_host) "dog"
                                 (example_context example_classes "car")))))
  = example_classes.
Proof.
  destruct (add_then_remove_restores (H := example_host) "dog"
              (example_context example_classes "car"))
    as (_ & Hcl & _).
  - discriminate.
  - discriminate.
  - discriminate.
  - apply (bool_decide_unpack _). by vm_compute.
  - exact Hcl.
Defined.

(** X6 on the name "dog". *)
Lemma add_class_twice_witness :
  reports (add_class_execute (H := example_host) "dog"
             (state (add_class_execute (H := example_host) "dog"
                       (example_context example_classes "car"))))
  = [(WARNING, "The class name already exists")].
Proof.
  destruct (add_class_twice (H := example_host) "dog" (example_context example_classes "car"))
    as (_ & _ & Hrep).
  - discriminate.
  - apply (bool_decide_unpack _). by vm_compute.
  - exact Hrep.
Defined.

(** X7 on the name "dog" in a context without an area. *)
Lemma add_class_without_area_witness :
  returned (add_class_execute (H := example_host) "dog" no_area_context) = inl Py.AttributeError
  ∧ selection_of (state (add_class_execute (H := example_host) "dog" no_area_context)) = "dog".
Proof.
  destruct (add_class_without_area (H := example_host) "dog" no_area_context)
    as (Hret & _ & Hsel).
  - reflexivity.
  - discriminate.
  - apply (bool_decide_unpack _). by vm_compute.
  - split; [exact Hret|exact Hsel].
Defined.

(** X9 on frames 1 to 5 with step 2: three renders, the scene at frame 5. *)
Lemma render_animation_count_witness :
  Z.of_nat (length (snd (state (render_animation_execute (H := example_host)
                                   (example_context example_classes "car") []))))
  = 3
  ∧ frame_current (scene (fst (state (render_animation_execute (H := example_host)
                                         (example_context example_classes "car") []))))
    = 5.
Proof.
  destruct (render_animation_count (H := example_host)
              (example_context example_classes "car") [])
    as (Hlen & Hcur).
  - simpl. lia.
  - simpl. lia.
  - split; [exact Hlen|exact Hcur].
Defined.

(** X10 on frames 5 to 1 with step 2. *)
Lemma render_animation_empty_range_witness :
  render_animation_execute (H := example_host) empty_range_context []
  = finished (empty_range_context, []) [].
Proof.
  apply (render_animation_empty_range (H := example_host)); simpl; lia.
Defined.

(** X14 on two windows: the viewport of the second window is taken. *)
Lemma onRenderWrite_last_view3d_witness :
  ∃ override,
    (onRenderWrite annotated_scene example_handler_context).2 = [override]
    ∧ dict_area override = Some bare_view3d
    ∧ dict_window override = Some (mkWindow (mkScreen [bare_view3d])).
Proof.
  destruct (onRenderWrite_last_view3d annotated_scene example_handler_context
              (mkWindow (mkScreen [bare_view3d])) bare_view3d)
    as (override & Hcalls & Hwindow & _ & Harea & _).
  - reflexivity.
  - reflexivity.
  - exists override. split; [exact Hcalls|]. split; [exact Harea|exact Hwindow].
Defined.

(** X15 on a window with a properties editor only. *)
Lemma onRenderWrite_no_view3d_witness :
  (onRenderWrite annotated_scene no_view3d_context).2
  = [mkContextDict None None None None].
Proof.
  apply (onRenderWrite_no_view3d annotated_scene no_view3d_context).
  - reflexivity.
  - intros window area Hw Ha.
    apply list_elem_of_singleton in Hw as ->.
    apply list_elem_of_singleton in Ha as ->. discriminate.
Defined.

(** X16 on the two windows: the region is that of the viewport of the
    first window, the area that of the second. *)
Lemma onRenderWrite_region_witness :
  ∃ override,
    (onRenderWrite annotated_scene example_handler_context).2 = [override]
    ∧ dict_region override = Some (mkRegion "WINDOW" false).
Proof.
  destruct (onRenderWrite_region annotated_scene example_handler_context)
    as (override & Hcalls & Hregion).
  - reflexivity.
  - exists override. split; [exact Hcalls|exact Hregion].
Defined.


(** X18 on handler lists that hold handlers of others. *)
Lemma register_then_unregister_witness :
  handlers (unregister (register example_app).1).1 = handlers example_app
  ∧ (register example_app).2 = None
  ∧ (unregister (register example_app).1).2 = None.
Proof.
  destruct (register_then_unregister example_app) as (Hhandlers & Hclasses).
  - apply (bool_decide_unpack _). by vm_compute.
  - apply (bool_decide_unpack _). by vm_compute.
  - apply (bool_decide_unpack _). by vm_compute.
  - destruct Hclasses as (Hret1 & Hret2 & _).
    + apply (bool_decide_unpack _). by vm_compute.
    + split; [exact Hhandlers|]. split; [exact Hret1|exact Hret2].
Defined.

(** X19 on the same handler lists. *)
Lemma register_twice_unregister_once_witness :
  (register (register example_app).1).2 = Some Py.ValueError.
Proof.
  destruct (register_twice_unregister_once example_app) as (_ & _ & _ & Hsecond).
  apply Hsecond. reflexivity.
Defined.
